(** * The raytracing widget of SnapPy: recompute/redraw orchestration

    A shallow embedding of [python/raytracing/raytracing_widget.py].

    The widget drives three external collaborators: the manifold object of
    the geometry kernel, the raytracing view that renders it, and the Tk
    controls.  Their calls are modelled as operations of a state-and-exception
    monad over the widget's state; every call that leaves the widget is
    written to a trace, so that "which calls, in which order" is a statement
    about a list.

    - The kernel is an interface ([Manifold]) over its own state.  Manifold
      objects live in a heap: [copy] makes a new object, and a method changes
      the object it is called on.
    - The view's methods and the registered callback are recorded and return;
      they do not write to the manifold, the dictionaries or the controllers.
    - [UniformDictController] is not among the sources; its operations follow
      the design document and are marked as such.
    - Python floats are IEEE binary64 numbers and are modelled by Rocq's
      primitive floats; what Python computes from a float outside IEEE
      arithmetic ([round], [float(int)], ['%.3f' % x]) is written out on the
      decoded mantissa and exponent.  [round] is that of Python 3.
    - Exceptions are those deriving from [Exception]; what a computation did
      before it raised stays done.

    The performance test of the same file, the GUI checks of
    [python/sage_helper.py], the save dialog of [python/filedialog.py] and the
    build script [SnapPyApp/make.py] follow, each in a module of its own. *)

From Stdlib Require Import ZArith QArith Qabs Floats Lia.
From stdpp Require Import base option list strings gmap pretty.

Local Open Scope Z_scope.
Set Warnings "-inexact-float".

(** ** Python values *)

Module Py.

(** The exceptions the module can meet; all derive from [Exception]. *)
Inductive exception : Type :=
  | ValueError
  | OverflowError
  | AttributeError
  | IndexError
  | KeyError
  | TypeError
  | RuntimeError.

#[global] Instance exception_eq_dec : EqDecision exception.
Proof. solve_decision. Defined.

(** A call either raises or returns. *)
Definition result (A : Type) : Type := exception + A.

(** [l[i]] on a list: a negative index counts from the end, and an index
    outside [-len(l) .. len(l)-1] raises [IndexError]. *)
Definition getitem {A} (l : list A) (i : Z) : result A :=
  let n := Z.of_nat (length l) in
  let j := if i <? 0 then n + i else i in
  if (j <? 0) || (n <=? j) then inl IndexError
  else match l !! Z.to_nat j with
       | Some x => inr x
       | None => inl IndexError
       end.

(** Nearest integer to [m * 2^e], ties to the even one. *)
Definition round_half_even (m e : Z) : Z :=
  if 0 <=? e then m * 2 ^ e
  else
    let d := 2 ^ (- e) in
    let q := m / d in
    let r := m mod d in
    match 2 * r ?= d with
    | Lt => q
    | Gt => q + 1
    | Eq => if Z.even q then q else q + 1
    end.

Definition signed (s : bool) (n : Z) : Z := if s then - n else n.

(** The exact value of a finite float, [(-1)^s * m * 2^e], as a fraction. *)
Definition float_value (x : float) : option Q :=
  match Prim2SF x with
  | S754_zero _ => Some 0%Q
  | S754_finite s m e =>
      Some match e with
           | Z.neg p => signed s (Z.pos m) # 2 ^ p
           | _ => inject_Z (signed s (Z.pos m) * 2 ^ e)
           end
  | S754_infinity _ | S754_nan => None
  end.

(** [round(x)] without [ndigits] (Python 3): an [int], halves to even;
    [nan] and the infinities raise. *)
Definition round (x : float) : result Z :=
  match Prim2SF x with
  | S754_nan => inl ValueError
  | S754_infinity _ => inl OverflowError
  | S754_zero _ => inr 0
  | S754_finite s m e => inr (signed s (round_half_even (Z.pos m) e))
  end.

(** [float(n)] of an [int]: correctly rounded, [OverflowError] beyond the
    largest double. *)
Definition float_of_int (n : Z) : result float :=
  match binary_normalize prec emax n 0 false with
  | S754_infinity _ => inl OverflowError
  | sf => inr (SF2Prim sf)
  end.

(** Decimal digits of a natural number, left-padded with zeros to [w]. *)
Definition zero_pad (w : nat) (s : string) : string :=
  String.concat "" (replicate (w - String.length s) "0"%string) +:+ s.

(** ['%.3f' % x]: the exact value rounded to three decimals, halves to even;
    the sign bit is printed also when the digits are all zero. *)
Definition format_3f (x : float) : string :=
  match Prim2SF x with
  | S754_nan => "nan"
  | S754_infinity s => if s then "-inf" else "inf"
  | S754_zero s => (if s then "-" else "") +:+ "0.000"
  | S754_finite s m e =>
      let n := round_half_even (Z.pos m * 1000) e in
      (if s then "-" else "") +:+ pretty (n / 1000) +:+ "." +:+
      zero_pad 3 (pretty (n mod 1000))
  end.

(** [max(l)]: the first largest item under [>]; [ValueError] when empty. *)
Definition max (l : list float) : result float :=
  match l with
  | [] => inl ValueError
  | x :: xs => inr (fold_left (fun acc y => if (acc <? y)%float then y else acc) xs x)
  end.

(** [math.sqrt(x)]: a domain error below zero. *)
Definition sqrt (x : float) : result float :=
  if (x <? 0)%float then inl ValueError else inr (PrimFloat.sqrt x).

End Py.

(** ** The external manifold object

    The geometry kernel is not part of this module; it is the interface the
    widget calls, over the kernel's own state [S].  A method that can fail
    returns a [Py.result]. *)

(** One entry of [cusp_info()]; only the key ['filling'] is read. *)
Record cusp_info_dict := { filling : float * float }.

Class Manifold (S : Type) := {
  num_cusps : S -> nat;
  cusp_info : S -> list cusp_info_dict;
  dehn_fill : list (list float) -> S -> Py.result S;
  init_hyperbolic_structure : bool -> S -> Py.result S;
  volume : S -> Py.result float;
  solution_type : S -> Z;
  has_cusp_area_matrix : S -> bool;
  cusp_area_matrix : string -> S -> Py.result (list (list float));
  copy : S -> Py.result S
}.

(** ** Uniform dictionaries and their controllers *)

(** A value of a uniform dictionary: a scalar, a list of scalars, or a list
    of vectors (each a Python list). *)
Inductive uniform_value :=
  | UScalar (x : float)
  | UArray (xs : list float)
  | UVecArray (vs : list (list float)).

(** An entry is the two-element list [[type_name, value]]. *)
Definition uniform := (string * uniform_value)%type.

(** The dictionaries a controller can be bound to. *)
Inductive dict_ref :=
  | Filling_dict          (* self.filling_dict *)
  | Ui_uniform_dict       (* self.main_widget.ui_uniform_dict *)
  | Ui_parameter_dict     (* self.main_widget.ui_parameter_dict *)
  | Navigation_dict.      (* self.main_widget.navigation_dict *)

#[global] Instance dict_ref_eq_dec : EqDecision dict_ref.
Proof. solve_decision. Defined.

#[global] Instance dict_ref_countable : Countable dict_ref.
Proof.
  refine (inj_countable'
            (fun d => match d with
                      | Filling_dict => 0 | Ui_uniform_dict => 1
                      | Ui_parameter_dict => 2 | Navigation_dict => 3
                      end)%nat
            (fun n => match n with
                      | 0 => Filling_dict | 1 => Ui_uniform_dict
                      | 2 => Ui_parameter_dict | _ => Navigation_dict
                      end)%nat _).
  intros []; reflexivity.
Defined.

(** Where the fillings are kept: [filling_dict['fillings']]. *)
Abbreviation fillings_key := (Filling_dict, "fillings"%string).

(** The bound methods handed to controllers as [update_function]. *)
Inductive bound_method :=
  | Push_fillings_to_manifold
  | Recompute_raytracing_data_and_redraw
  | Redraw_if_initialized.

Inductive scale_class := Slider | ZoomSlider.

(** Modelled from the spec: [UniformDictController] of gui_utilities.py is
    not in the sources.  A binding holds the (dict, key, index, component)
    path, the numeric range, the formatting rule and the update callback; the
    value its control shows is [displayed]. *)
Record UniformDictController := {
  udc_uniform_dict : dict_ref;
  udc_key : string;
  udc_index : option nat;
  udc_component_index : option nat;
  udc_title : option string;
  udc_row : nat;
  udc_column : nat;
  udc_from_ : float;
  udc_to : float;
  udc_update_function : option bound_method;
  udc_format_string : option string;
  udc_scale_class : scale_class;
  udc_displayed : option float
}.

Definition set_displayed (v : float) (c : UniformDictController) :=
  {| udc_uniform_dict := udc_uniform_dict c; udc_key := udc_key c;
     udc_index := udc_index c; udc_component_index := udc_component_index c;
     udc_title := udc_title c; udc_row := udc_row c; udc_column := udc_column c;
     udc_from_ := udc_from_ c; udc_to := udc_to c;
     udc_update_function := udc_update_function c;
     udc_format_string := udc_format_string c;
     udc_scale_class := udc_scale_class c;
     udc_displayed := Some v |}.

(** ** Calls that leave the widget *)

Definition loc := nat.

(** The callable registered as [fillings_changed_callback]. *)
Inductive callable := Callable (name : string).

Inductive event :=
  | E_copy (mfd new : loc)
  | E_num_cusps (mfd : loc)
  | E_cusp_info (mfd : loc)
  | E_dehn_fill (mfd : loc) (fillings : list (list float))
  | E_init_hyperbolic_structure (mfd : loc) (force_recompute : bool)
  | E_volume (mfd : loc)
  | E_solution_type (mfd : loc)
  | E_cusp_area_matrix (mfd : loc) (method : string)
  | E_recompute_raytracing_data_and_redraw
  | E_redraw_if_initialized
  | E_vol_label_configure (text : string)
  | E_control_show (d : dict_ref) (key : string) (index component : option nat) (v : float)
  | E_update_function (f : bound_method)
  | E_call (f : callable)
  | E_print (msg : string) (e : Py.exception).

(** ** The widget's state and its monad *)

Section Widget.

Context {S : Type} `{Manifold S}.

(** The Python objects the widget holds or reaches.  Manifold objects live in
    a heap, so that a copy is a new object and a method call changes the
    object it is called on. *)
Record RaytracingWidget := {
  heap : gmap loc S;
  manifold : loc;                                   (* self.main_widget.manifold *)
  dicts : gmap (dict_ref * string) uniform;           (* d[key], for each dictionary d *)
  filling_controllers : list UniformDictController;
  vol_label : option string;                        (* None: attribute not set *)
  fillings_changed_callback : option callable;
  trace : list event
}.

Definition set_heap (h : gmap loc S) (w : RaytracingWidget) :=
  {| heap := h; manifold := manifold w; dicts := dicts w;
     filling_controllers := filling_controllers w; vol_label := vol_label w;
     fillings_changed_callback := fillings_changed_callback w; trace := trace w |}.

Definition set_dicts (d : gmap (dict_ref * string) uniform) (w : RaytracingWidget) :=
  {| heap := heap w; manifold := manifold w; dicts := d;
     filling_controllers := filling_controllers w; vol_label := vol_label w;
     fillings_changed_callback := fillings_changed_callback w; trace := trace w |}.

Definition set_filling_controllers (cs : list UniformDictController) (w : RaytracingWidget) :=
  {| heap := heap w; manifold := manifold w; dicts := dicts w;
     filling_controllers := cs; vol_label := vol_label w;
     fillings_changed_callback := fillings_changed_callback w; trace := trace w |}.

Definition set_vol_label (t : option string) (w : RaytracingWidget) :=
  {| heap := heap w; manifold := manifold w; dicts := dicts w;
     filling_controllers := filling_controllers w; vol_label := t;
     fillings_changed_callback := fillings_changed_callback w; trace := trace w |}.

Definition set_trace (t : list event) (w : RaytracingWidget) :=
  {| heap := heap w; manifold := manifold w; dicts := dicts w;
     filling_controllers := filling_controllers w; vol_label := vol_label w;
     fillings_changed_callback := fillings_changed_callback w; trace := t |}.

(** A computation runs on the state and either raises or returns; what it
    did to the state before raising stays done. *)
Definition M (A : Type) : Type := RaytracingWidget -> Py.result A * RaytracingWidget.

Definition ret {A} (a : A) : M A := fun w => (inr a, w).

Definition bind {A B} (m : M A) (k : A -> M B) : M B :=
  fun w => match m w with
           | (inr a, w') => k a w'
           | (inl e, w') => (inl e, w')
           end.

Definition raise {A} (e : Py.exception) : M A := fun w => (inl e, w).

Definition lift {A} (r : Py.result A) : M A := fun w => (r, w).

Definition gets {A} (f : RaytracingWidget -> A) : M A := fun w => (inr (f w), w).

Definition modify (f : RaytracingWidget -> RaytracingWidget) : M unit :=
  fun w => (inr tt, f w).

(** [try: body except cls: handler]; an exception outside [cls] goes on. *)
Definition try_except {A} (body : M A) (cls : Py.exception -> bool)
    (handler : Py.exception -> M A) : M A :=
  fun w => match body w with
           | (inl e, w') => if cls e then handler e w' else (inl e, w')
           | r => r
           end.

#[local] Notation "x <- m ;; k" := (bind m (fun x => k))
  (at level 100, m at next level, right associativity).
#[local] Notation "m ;;; k" := (bind m (fun _ => k))
  (at level 100, right associativity).

(** [for x in l: body x] *)
Fixpoint for_ {A} (l : list A) (body : A -> M unit) : M unit :=
  match l with
  | [] => ret tt
  | x :: l' => body x ;;; for_ l' body
  end.

(** [[body x for x in l]] *)
Fixpoint list_comprehension {A B} (l : list A) (body : A -> M B) : M (list B) :=
  match l with
  | [] => ret []
  | x :: l' => y <- body x ;; ys <- list_comprehension l' body ;; ret (y :: ys)
  end.

Definition emit (e : event) : M unit :=
  modify (fun w => set_trace (trace w ++ [e]) w).

(** *** Methods of a manifold object *)

Definition deref (l : loc) : M S :=
  fun w => match heap w !! l with
           | Some s => (inr s, w)
           | None => (inl Py.RuntimeError, w)
           end.

Definition store (l : loc) (s : S) : M unit :=
  modify (fun w => set_heap (<[l := s]> (heap w)) w).

Definition manifold_hasattr_cusp_area_matrix (l : loc) : M bool :=
  s <- deref l ;; ret (has_cusp_area_matrix s).

Definition manifold_copy (l : loc) : M loc :=
  s <- deref l ;;
  l' <- gets (fun w => fresh (dom (heap w))) ;;
  emit (E_copy l l') ;;;
  s' <- lift (copy s) ;;
  store l' s' ;;;
  ret l'.

Definition manifold_num_cusps (l : loc) : M nat :=
  emit (E_num_cusps l) ;;; s <- deref l ;; ret (num_cusps s).

Definition manifold_cusp_info (l : loc) : M (list cusp_info_dict) :=
  emit (E_cusp_info l) ;;; s <- deref l ;; ret (cusp_info s).

Definition manifold_dehn_fill (l : loc) (fillings : list (list float)) : M unit :=
  emit (E_dehn_fill l fillings) ;;;
  s <- deref l ;; s' <- lift (dehn_fill fillings s) ;; store l s'.

Definition manifold_init_hyperbolic_structure (l : loc) (force_recompute : bool) : M unit :=
  emit (E_init_hyperbolic_structure l force_recompute) ;;;
  s <- deref l ;; s' <- lift (init_hyperbolic_structure force_recompute s) ;; store l s'.

Definition manifold_volume (l : loc) : M float :=
  emit (E_volume l) ;;; s <- deref l ;; lift (volume s).

Definition manifold_solution_type (l : loc) : M Z :=
  emit (E_solution_type l) ;;; s <- deref l ;; ret (solution_type s).

Definition manifold_cusp_area_matrix (l : loc) (method : string) : M (list (list float)) :=
  emit (E_cusp_area_matrix l method) ;;; s <- deref l ;; lift (cusp_area_matrix method s).

(** [m[i,j]] on the matrix the kernel returns. *)
Definition matrix_getitem (m : list (list float)) (i j : nat) : Py.result float :=
  match m !! i with
  | Some r => match r !! j with Some x => inr x | None => inl Py.IndexError end
  | None => inl Py.IndexError
  end.

(** *** The raytracing view and the label *)

(** Modelled from the spec: the two methods of the view, which is not in the
    sources.  They are calls to the rendering engine: recorded, taken to
    return, and without a hand on the widget's own objects. *)
Definition recompute_raytracing_data_and_redraw : M unit :=
  emit E_recompute_raytracing_data_and_redraw.

Definition redraw_if_initialized : M unit :=
  emit E_redraw_if_initialized.

(** [self.vol_label.configure(text = t)]; reading the attribute before the
    status frame exists raises [AttributeError]. *)
Definition vol_label_configure (t : string) : M unit :=
  l <- gets vol_label ;;
  match l with
  | None => raise Py.AttributeError
  | Some _ => emit (E_vol_label_configure t) ;;; modify (set_vol_label (Some t))
  end.

(** *** Dictionaries *)

Definition dict_getitem (d : dict_ref) (k : string) : M uniform :=
  fun w => match dicts w !! (d, k) with
           | Some u => (inr u, w)
           | None => (inl Py.KeyError, w)
           end.

Definition dict_setitem (d : dict_ref) (k : string) (u : uniform) : M unit :=
  modify (fun w => set_dicts (<[(d, k) := u]> (dicts w)) w).

(** [d = {k: u}]: the name is bound to a new dictionary. *)
Definition dict_new (d : dict_ref) (k : string) (u : uniform) : M unit :=
  modify (fun w =>
    set_dicts (<[(d, k) := u]> (filter (fun e => e.1.1 <> d) (dicts w))) w).

(** The value of an entry read as a list of vectors; an empty list has no
    element type. *)
Definition as_vec_array (v : uniform_value) : Py.result (list (list float)) :=
  match v with
  | UVecArray vs => inr vs
  | UArray [] => inr []
  | _ => inl Py.TypeError
  end.

(** [value[index][component]], [value[index]] or [value], by the path. *)
Definition uniform_get (v : uniform_value) (index component : option nat) : Py.result float :=
  match v, index, component with
  | UScalar x, None, None => inr x
  | UArray xs, Some i, None =>
      match xs !! i with Some x => inr x | None => inl Py.IndexError end
  | UVecArray vs, Some i, Some c =>
      match vs !! i with
      | Some r => match r !! c with Some x => inr x | None => inl Py.IndexError end
      | None => inl Py.IndexError
      end
  | _, _, _ => inl Py.TypeError
  end.

Definition uniform_set (v : uniform_value) (index component : option nat) (x : float)
    : Py.result uniform_value :=
  match v, index, component with
  | UScalar _, None, None => inr (UScalar x)
  | UArray xs, Some i, None =>
      if decide (i < length xs)%nat then inr (UArray (<[i := x]> xs)) else inl Py.IndexError
  | UVecArray vs, Some i, Some c =>
      match vs !! i with
      | Some r =>
          if decide (c < length r)%nat then inr (UVecArray (<[i := <[c := x]> r]> vs))
          else inl Py.IndexError
      | None => inl Py.IndexError
      end
  | _, _, _ => inl Py.TypeError
  end.

(** *** Controllers *)

(** Modelled from the spec: the value a binding addresses. *)
Definition get_value (c : UniformDictController) : M float :=
  u <- dict_getitem (udc_uniform_dict c) (udc_key c) ;;
  lift (uniform_get u.2 (udc_index c) (udc_component_index c)).

(** Modelled from the spec: the write of a binding, to the [index]-th element
    of the sequence under [key] and, with a [component_index], to that
    component of it. *)
Definition set_value (c : UniformDictController) (x : float) : M unit :=
  u <- dict_getitem (udc_uniform_dict c) (udc_key c) ;;
  v <- lift (uniform_set u.2 (udc_index c) (udc_component_index c) x) ;;
  dict_setitem (udc_uniform_dict c) (udc_key c) (u.1, v).

(** Modelled from the spec: [update()] of the [i]-th filling controller, the
    pull-from-model direction; it shows the value and calls nothing back. *)
Definition UniformDictController_update (i : nat) : M unit :=
  cs <- gets filling_controllers ;;
  match cs !! i with
  | None => raise Py.IndexError
  | Some c =>
      x <- get_value c ;;
      emit (E_control_show (udc_uniform_dict c) (udc_key c) (udc_index c)
              (udc_component_index c) x) ;;;
      modify (fun w => set_filling_controllers
                         (<[i := set_displayed x c]> (filling_controllers w)) w)
  end.

(** Modelled from the spec: the values an edit may store are those of
    [[from_, to]]. *)
Definition clamp (from_ to x : float) : float :=
  if (x <? from_)%float then from_ else if (to <? x)%float then to else x.

(** Modelled from the spec: [UniformDictController.create_horizontal_scale];
    the Tk widgets it grids are left out. *)
Definition create_horizontal_scale (uniform_dict : dict_ref) (key : string)
    (title : option string) (row : nat) (from_ to : float)
    (update_function : option bound_method) (column : nat)
    (format_string : option string) (index component_index : option nat)
    (scale_class : scale_class) : UniformDictController :=
  {| udc_uniform_dict := uniform_dict; udc_key := key; udc_index := index;
     udc_component_index := component_index; udc_title := title;
     udc_row := row; udc_column := column; udc_from_ := from_; udc_to := to;
     udc_update_function := update_function; udc_format_string := format_string;
     udc_scale_class := scale_class; udc_displayed := None |}.

(** A frame, as the controllers gridded into it. *)
Definition frame := list UniformDictController.

(** ** The module, function by function *)

Definition _solution_type_text : list string :=
  [ "degenerate";
    "geometric";
    "non-geometric";
    "flat";
    "degenerate";
    "degenerate";
    "degenerate" ]%string.

Definition vol_label_text (vol_text sol_text : string) : string :=
  "Vol: " +:+ vol_text +:+ " (" +:+ sol_text +:+ ")".

Definition is_exception (e : Py.exception) : Py.exception -> bool :=
  fun e' => bool_decide (e' = e).

Definition update_volume_label : M unit :=
  vol_text <- try_except
                (mfd <- gets manifold ;;
                 v <- manifold_volume mfd ;;
                 ret (Py.format_3f v))
                (is_exception Py.ValueError)
                (fun _ => ret "-"%string) ;;
  mfd <- gets manifold ;;
  sol_type <- manifold_solution_type mfd ;;
  sol_text <- lift (Py.getitem _solution_type_text sol_type) ;;
  try_except
    (vol_label_configure (vol_label_text vol_text sol_text))
    (is_exception Py.AttributeError)
    (fun _ => ret tt).

Definition update_filling_sliders : M unit :=
  cs <- gets filling_controllers ;;
  for_ (seq 0 (length cs)) UniformDictController_update.

Definition _fillings_from_manifold : M uniform :=
  mfd <- gets manifold ;;
  info <- manifold_cusp_info mfd ;;
  ret ("vec2[]"%string,
       UVecArray (map (fun d => [ (filling d).1; (filling d).2 ]) info)).

Definition pull_fillings_from_manifold : M unit :=
  u <- _fillings_from_manifold ;;
  dict_setitem Filling_dict "fillings" u ;;;
  update_filling_sliders ;;;
  recompute_raytracing_data_and_redraw ;;;
  update_volume_label.

(** [self.fillings_changed_callback()], when one is set. *)
Definition call_fillings_changed_callback : M unit :=
  cb <- gets fillings_changed_callback ;;
  match cb with
  | Some f => emit (E_call f)
  | None => ret tt
  end.

Definition push_fillings_to_manifold : M unit :=
  mfd <- gets manifold ;;
  u <- dict_getitem Filling_dict "fillings" ;;
  fillings <- lift (as_vec_array u.2) ;;
  manifold_dehn_fill mfd fillings ;;;
  recompute_raytracing_data_and_redraw ;;;
  update_volume_label ;;;
  call_fillings_changed_callback.

Definition recompute_hyperbolic_structure : M unit :=
  mfd <- gets manifold ;;
  manifold_init_hyperbolic_structure mfd true ;;;
  recompute_raytracing_data_and_redraw ;;;
  update_volume_label ;;;
  call_fillings_changed_callback.

(** [f[i]] and [f[i] = x] for [f] the [j]-th list of the fillings entry: the
    loop of [round_fillings] writes into the lists the dictionary holds.
    [round] is that of Python 3. *)
Definition filling_getitem (j i : nat) : M float :=
  u <- dict_getitem Filling_dict "fillings" ;;
  lift (uniform_get u.2 (Some j) (Some i)).

Definition filling_setitem (j i : nat) (x : float) : M unit :=
  u <- dict_getitem Filling_dict "fillings" ;;
  v <- lift (uniform_set u.2 (Some j) (Some i) x) ;;
  dict_setitem Filling_dict "fillings" (u.1, v).

Definition round_fillings : M unit :=
  u <- dict_getitem Filling_dict "fillings" ;;
  fillings <- lift (as_vec_array u.2) ;;
  for_ (seq 0 (length fillings)) (fun f =>
    for_ [0; 1]%nat (fun i =>
      x <- filling_getitem f i ;;
      n <- lift (Py.round x) ;;
      y <- lift (Py.float_of_int n) ;;
      filling_setitem f i y)) ;;;
  update_filling_sliders ;;;
  push_fillings_to_manifold.

(** The tuples [(0,0)] reach the kernel as the floats 0.0. *)
Definition _maximal_cusp_area (mfd : loc) : M float :=
  has <- manifold_hasattr_cusp_area_matrix mfd ;;
  if negb has then ret 5.0%float
  else
    try_except
      (mfd <- manifold_copy mfd ;;
       n <- manifold_num_cusps mfd ;;
       manifold_dehn_fill mfd (replicate n [0; 0]%float) ;;;
       manifold_init_hyperbolic_structure mfd true ;;;
       m <- manifold_cusp_area_matrix mfd "trigDependent" ;;
       n <- manifold_num_cusps mfd ;;
       diagonal <- list_comprehension (seq 0 n)
                     (fun i => lift (matrix_getitem m i i)) ;;
       a <- lift (Py.max diagonal) ;;
       lift (Py.sqrt a))
      (fun _ => true)
      (fun e =>
         emit (E_print "Exception while trying to compute maximal cusp area:" e) ;;;
         ret 5.0%float).

Definition cusp_title (i : nat) : string := "Cusp " +:+ pretty i.

(** The scales of the frame; its check box for the ideal view is bound to a
    dictionary of the view and is left out. *)
Definition create_cusp_areas_frame : M frame :=
  mfd <- gets manifold ;;
  a <- _maximal_cusp_area mfd ;;
  let cusp_area_maximum := (1.05 * a)%float in
  mfd <- gets manifold ;;
  n <- manifold_num_cusps mfd ;;
  ret (map (fun i =>
              create_horizontal_scale Ui_parameter_dict "cuspAreas"
                (Some (cusp_title i)) i 0.0%float cusp_area_maximum
                (Some Recompute_raytracing_data_and_redraw) 0 None
                (Some i) None Slider)
           (seq 0 n)).

Definition create_fillings_frame : M frame :=
  modify (set_filling_controllers []) ;;;
  mfd <- gets manifold ;;
  n <- manifold_num_cusps mfd ;;
  for_ (seq 0 n) (fun i =>
    modify (fun w => set_filling_controllers
      (filling_controllers w ++
       [ create_horizontal_scale Filling_dict "fillings"
           (Some (cusp_title i)) i (-15)%float 15%float
           (Some Push_fillings_to_manifold) 0 None
           (Some i) (Some 0%nat) ZoomSlider ]) w) ;;;
    modify (fun w => set_filling_controllers
      (filling_controllers w ++
       [ create_horizontal_scale Filling_dict "fillings"
           None i (-15)%float 15%float
           (Some Push_fillings_to_manifold) 3 None
           (Some i) (Some 1%nat) ZoomSlider ]) w)) ;;;
  gets filling_controllers.

(** [create_status_frame]: the labels come into being. *)
Definition create_status_frame : M unit :=
  modify (set_vol_label (Some ""%string)).

(** [RaytracingWidget.__init__], without the frames that only lay out
    controls of the view's own dictionaries. *)
Definition __init__ (mfd : loc) (callback : option callable) : M unit :=
  modify (fun w =>
    {| heap := heap w; manifold := mfd; dicts := dicts w;
       filling_controllers := filling_controllers w; vol_label := vol_label w;
       fillings_changed_callback := callback; trace := trace w |}) ;;;
  u <- _fillings_from_manifold ;;
  dict_new Filling_dict "fillings" u ;;;
  create_cusp_areas_frame ;;;
  create_fillings_frame ;;;
  create_status_frame ;;;
  update_volume_label.

(** *** User edits *)

Definition call_bound_method (f : bound_method) : M unit :=
  match f with
  | Push_fillings_to_manifold => push_fillings_to_manifold
  | Recompute_raytracing_data_and_redraw => recompute_raytracing_data_and_redraw
  | Redraw_if_initialized => redraw_if_initialized
  end.

(** Modelled from the spec: a user edit of a binding.  The requested value is
    clamped to the range and written; after the write the update callback is
    called. *)
Definition edit (c : UniformDictController) (x : float) : M unit :=
  set_value c (clamp (udc_from_ c) (udc_to c) x) ;;;
  match udc_update_function c with
  | Some f => emit (E_update_function f) ;;; call_bound_method f
  | None => ret tt
  end.

(** ** What a run leaves behind *)

(** The events a run appended to the trace. *)
Definition events_of {A} (m : M A) (w : RaytracingWidget) : list event :=
  drop (length (trace w)) (trace (m w).2).

(** A computation respects a relation on states when every run, whether it
    returns or raises, takes a state to a related one. *)
Definition respects (R : relation RaytracingWidget) {A} (m : M A) : Prop :=
  forall w, R w (m w).2.

Definition add_events (evs : list event) (w : RaytracingWidget) : RaytracingWidget :=
  set_trace (trace w ++ evs) w.

(** The trace grew by events that all satisfy [P]. *)
Definition extends_by (P : event -> Prop) : relation RaytracingWidget :=
  fun w w' => exists evs, trace w' = trace w ++ evs /\ Forall P evs.

(** The calls that only read the manifold or refresh what is displayed. *)
Definition reads_or_displays (e : event) : Prop :=
  match e with
  | E_cusp_info _ | E_volume _ | E_solution_type _
  | E_control_show _ _ _ _ _ | E_recompute_raytracing_data_and_redraw
  | E_vol_label_configure _ => True
  | _ => False
  end.

(** The calls that change a manifold object are on [l'] only, and they unfill
    its cusps or force the recomputation of its structure. *)
Definition on_copy (l' : loc) (e : event) : Prop :=
  match e with
  | E_dehn_fill l fillings => l = l' /\ exists n, fillings = replicate n [0; 0]%float
  | E_init_hyperbolic_structure l force_recompute => l = l' /\ force_recompute = true
  | _ => True
  end.

(** The dictionaries are as they were. *)
Definition same_dicts : relation RaytracingWidget :=
  fun w w' => dicts w' = dicts w.

(** Only what is displayed changed: the manifold objects, the dictionaries
    and the registered callback are as they were. *)
Definition display_only : relation RaytracingWidget :=
  fun w w' =>
    heap w' = heap w /\ manifold w' = manifold w /\ dicts w' = dicts w /\
    fillings_changed_callback w' = fillings_changed_callback w.

(** Every manifold object other than [l'] is as it was. *)
Definition heap_agrees_off (l' : loc) : relation RaytracingWidget :=
  fun w w' => forall l, l <> l' -> heap w' !! l = heap w !! l.

(** What follows the first kernel call on both the filling-edit path and the
    recompute path. *)
Definition finish : M unit :=
  recompute_raytracing_data_and_redraw ;;;
  update_volume_label ;;;
  call_fillings_changed_callback.

(** [y] is [float(round(x))]. *)
Definition rounded (x y : float) : Prop :=
  exists n, Py.round x = inr n /\ Py.float_of_int n = inr y.

(** [y] is the float of an integer nearest to [x]. *)
Definition nearest_integer (x y : float) : Prop :=
  exists (n : Z) (q : Q),
    Py.float_value x = Some q /\ (Qabs (q - inject_Z n) <= 1 # 2)%Q /\
    Py.float_of_int n = inr y.

(** The value a controller of the fillings shows when the fillings are [vs],
    and the call that shows it. *)
Definition shown (vs : list (list float)) (c : UniformDictController) : float :=
  match uniform_get (UVecArray vs) (udc_index c) (udc_component_index c) with
  | inr x => x
  | inl _ => 0%float
  end.

Definition control_show_event (vs : list (list float)) (c : UniformDictController) : event :=
  E_control_show (udc_uniform_dict c) (udc_key c) (udc_index c) (udc_component_index c)
    (shown vs c).

(** A controller bound to a component of the fillings entry [vs]. *)
Definition bound_to_fillings (vs : list (list float)) (c : UniformDictController) : Prop :=
  udc_uniform_dict c = Filling_dict /\ udc_key c = "fillings"%string /\
  exists i j r, udc_index c = Some i /\ udc_component_index c = Some j /\
                vs !! i = Some r /\ (j < length r)%nat.

(** The slider [create_cusp_areas_frame] makes for cusp [i]. *)
Definition cusp_area_scale (cusp_area_maximum : float) (i : nat) : UniformDictController :=
  create_horizontal_scale Ui_parameter_dict "cuspAreas" (Some (cusp_title i)) i
    0.0%float cusp_area_maximum (Some Recompute_raytracing_data_and_redraw) 0 None
    (Some i) None Slider.

(** The two sliders [create_fillings_frame] makes for cusp [i]. *)
Definition filling_scale (i component : nat) : UniformDictController :=
  create_horizontal_scale Filling_dict "fillings"
    (if decide (component = 0%nat) then Some (cusp_title i) else None) i
    (-15)%float 15%float (Some Push_fillings_to_manifold)
    (if decide (component = 0%nat) then 0%nat else 3%nat) None
    (Some i) (Some component) ZoomSlider.

(** What the label shows and the calls made for it, for a volume text and a
    solution text. *)
Definition label_events (vol_text sol_text : string) (w : RaytracingWidget) : list event :=
  [E_volume (manifold w); E_solution_type (manifold w)] ++
  match vol_label w with
  | Some _ => [E_vol_label_configure (vol_label_text vol_text sol_text)]
  | None => []
  end.

Definition callback_events (w : RaytracingWidget) : list event :=
  match fillings_changed_callback w with
  | Some f => [E_call f]
  | None => []
  end.

(** The calls of [finish]. *)
Definition finish_events (vol_text sol_text : string) (w : RaytracingWidget) : list event :=
  E_recompute_raytracing_data_and_redraw
    :: label_events vol_text sol_text w ++ callback_events w.

(** The text of the volume: three decimals, or the sentinel when the volume
    is not defined. *)
Definition vol_text_of (r : Py.result float) : Py.result string :=
  match r with
  | inr v => inr (Py.format_3f v)
  | inl Py.ValueError => inr "-"%string
  | inl e => inl e
  end.

End Widget.

Arguments RaytracingWidget S : clear implicits.
Arguments M S A : clear implicits.

(** ** A kernel that stores what it is told

    The simplest manifold object that honours the interface: it keeps the
    fillings it is given, reports a volume and a solution type it was set up
    with, and has a cusp area matrix only while every cusp is unfilled. *)

Module Stored.

Record state := {
  fillings : list (float * float);
  vol : Py.result float;
  sol : Z;
  is_snappy : bool;
  areas : Py.result (list (list float))
}.

Definition as_pair (f : list float) : option (float * float) :=
  match f with
  | [a; b] => Some (a, b)
  | _ => None
  end.

Fixpoint as_pairs (fs : list (list float)) : option (list (float * float)) :=
  match fs with
  | [] => Some []
  | f :: fs' =>
      match as_pair f, as_pairs fs' with
      | Some p, Some ps => Some (p :: ps)
      | _, _ => None
      end
  end.

Definition with_fillings (ps : list (float * float)) (m : state) : state :=
  {| fillings := ps; vol := vol m; sol := sol m; is_snappy := is_snappy m;
     areas := areas m |}.

Definition unfilled (p : float * float) : bool :=
  (p.1 =? 0)%float && (p.2 =? 0)%float.

#[global] Instance kernel : Manifold state := {|
  num_cusps m := length (fillings m);
  cusp_info m := map (fun p => {| filling := p |}) (fillings m);
  dehn_fill fs m :=
    match as_pairs fs with
    | Some ps =>
        if decide (length ps = length (fillings m)) then inr (with_fillings ps m)
        else inl Py.IndexError
    | None => inl Py.ValueError
    end;
  init_hyperbolic_structure _ m := inr m;
  volume m := vol m;
  solution_type m := sol m;
  has_cusp_area_matrix m := is_snappy m;
  cusp_area_matrix _ m :=
    if forallb unfilled (fillings m) then areas m else inl Py.RuntimeError;
  copy m := inr m
|}.

(** A fresh widget on a heap that holds one manifold, before [__init__]. *)
Definition blank (m : state) : RaytracingWidget state :=
  {| heap := {[ 0%nat := m ]}; manifold := 0%nat; dicts := ∅;
     filling_controllers := []; vol_label := None;
     fillings_changed_callback := None; trace := [] |}.

(** The widget after [__init__]. *)
Definition widget (m : state) (callback : option callable) : RaytracingWidget state :=
  (__init__ 0%nat callback (blank m)).2.

Definition m2 : state :=
  {| fillings := [(1, 2); (3, 4)]%float; vol := inr 2.0299%float; sol := 1;
     is_snappy := true; areas := inr [[4; 1]; [1; 9]]%float |}.

(** A manifold whose structure is degenerate: no volume, no cusp areas. *)
Definition degenerate : state :=
  {| fillings := [(1, 0)]%float; vol := inl Py.ValueError; sol := 4;
     is_snappy := true; areas := inl Py.RuntimeError |}.

(** A manifold with fillings that are not integers. *)
Definition halves : state :=
  {| fillings := [(2.5, 1.2); (-0.5, 3.7)]%float; vol := inr 2.0299%float; sol := 1;
     is_snappy := true; areas := inr [[4; 1]; [1; 9]]%float |}.

(** A manifold of the bare kernel class, without [cusp_area_matrix]. *)
Definition bare : state :=
  {| fillings := [(1, 2)]%float; vol := inr 2.0299%float; sol := 1;
     is_snappy := false; areas := inl Py.AttributeError |}.

Definition modeline : callable := Callable "update_modeline_and_side_panel".

(** A widget whose dictionary holds one filling too few for its manifold. *)
Definition short (m : state) : RaytracingWidget state :=
  set_dicts {[ (Filling_dict, "fillings"%string) :=
                 ("vec2[]"%string, UVecArray [[1; 2]]%float) ]}
    (widget m (Some modeline)).

End Stored.


(** ** The state a widget is in between two events *)

Section Invariants.

Context {S : Type} `{Manifold S}.



(** Every value a computation returns satisfies [P]. *)
Definition returns {A} (P : A -> Prop) (m : M S A) : Prop :=
  forall w a w', m w = (inr a, w') -> P a.

(** Only the trace and the label changed. *)
Definition label_only : relation (RaytracingWidget S) :=
  fun w w' =>
    heap w' = heap w /\ manifold w' = manifold w /\ dicts w' = dicts w /\
    filling_controllers w' = filling_controllers w /\
    fillings_changed_callback w' = fillings_changed_callback w.

(** The dictionaries and the sliders are as they were. *)
Definition bindings_kept : relation (RaytracingWidget S) :=
  fun w w' =>
    dicts w' = dicts w /\ filling_controllers w' = filling_controllers w.

(** Apart from the trace, only the manifold object [l'] changed. *)
Definition widget_agrees_off (l' : loc) : relation (RaytracingWidget S) :=
  fun w w' =>
    (forall l, l <> l' -> heap w' !! l = heap w !! l) /\
    manifold w' = manifold w /\ dicts w' = dicts w /\
    filling_controllers w' = filling_controllers w /\
    vol_label w' = vol_label w /\
    fillings_changed_callback w' = fillings_changed_callback w.

End Invariants.

Section Invariants_label.

Context {S : Type}.

(** A label that is there stays there. *)
Definition label_stays : relation (RaytracingWidget S) :=
  fun w w' => is_Some (vol_label w) -> is_Some (vol_label w').

End Invariants_label.

(** ** More manifolds for the storing kernel, and a kernel that fails *)

Module Cases.

(** A closed manifold: no cusps, and a cusp area matrix without rows. *)
Definition closed : Stored.state :=
  {| Stored.fillings := []; Stored.vol := inr 0.9427%float; Stored.sol := 1;
     Stored.is_snappy := true; Stored.areas := inr [] |}.

(** A manifold whose kernel reports the solution type [c]. *)
Definition coded (c : Z) : Stored.state :=
  {| Stored.fillings := [(1, 2)]%float; Stored.vol := inr 2.0299%float; Stored.sol := c;
     Stored.is_snappy := true; Stored.areas := inr [[4]]%float |}.

(** A manifold whose volume computation fails with something other than
    [ValueError]. *)
Definition crashing : Stored.state :=
  {| Stored.fillings := [(1, 2)]%float; Stored.vol := inl Py.RuntimeError; Stored.sol := 1;
     Stored.is_snappy := true; Stored.areas := inr [[4]]%float |}.

(** The widget made for [m2], after its manifold object has become [m]. *)
Definition later (m : Stored.state) : RaytracingWidget Stored.state :=
  set_heap {[ 0%nat := m ]} (Stored.widget Stored.m2 None).

(** A widget whose dictionary holds a filling that is not a number. *)
Definition undefined (callback : option callable) : RaytracingWidget Stored.state :=
  set_dicts {[ (Filling_dict, "fillings"%string) :=
                 ("vec2[]"%string, UVecArray [[2.5; 1.2]; [nan; 3.7]]%float) ]}
    (Stored.widget Stored.halves callback).

End Cases.

(** The storing kernel, except that the hyperbolic structure cannot be
    computed: [init_hyperbolic_structure] raises. *)
Module Unstable.

Inductive state := Wrap (m : Stored.state).

Definition unwrap (u : state) : Stored.state := let 'Wrap m := u in m.

Definition wrapped (r : Py.result Stored.state) : Py.result state :=
  match r with
  | inr m => inr (Wrap m)
  | inl e => inl e
  end.

#[global] Instance kernel : Manifold state := {|
  num_cusps u := num_cusps (unwrap u);
  cusp_info u := cusp_info (unwrap u);
  dehn_fill fs u := wrapped (dehn_fill fs (unwrap u));
  init_hyperbolic_structure _ _ := inl Py.RuntimeError;
  volume u := volume (unwrap u);
  solution_type u := solution_type (unwrap u);
  has_cusp_area_matrix u := has_cusp_area_matrix (unwrap u);
  cusp_area_matrix method u := cusp_area_matrix method (unwrap u);
  copy u := wrapped (copy (unwrap u))
|}.

(** The widget after [__init__] on a manifold of this kernel. *)
Definition widget (m : Stored.state) : RaytracingWidget state :=
  (__init__ 0%nat None
     {| heap := {[ 0%nat := Wrap m ]}; manifold := 0%nat; dicts := ∅;
        filling_controllers := []; vol_label := None;
        fillings_changed_callback := None; trace := [] |}).2.

End Unstable.

(** * The performance test

    [PerfTest] of [raytracing_widget.py].  The test lives inside Tk's event
    loop: [after(250, self.redraw)] leaves one call of [redraw] pending, and
    [mainloop] delivers what happens, until the window is gone.  What happens
    is either the timer of a pending call running out or the view reporting
    the time a frame took, by calling [report_time_callback]. *)

Module PerfTest.

(** [SystemExit] is what [sys.exit] raises; Tk's event loop lets it through
    and reports every other exception of a callback. *)
Inductive exception :=
  | ZeroDivisionError
  | OverflowError
  | SystemExit (code : Z).

Inductive event :=
  | E_after (ms : Z)
  | E_focus_set
  | E_mainloop
  | E_update_view_state (distance : float)
  | E_redraw_if_initialized
  | E_print (s : string)
  | E_report_callback_exception (e : exception).

(** The attributes of the test.  [m] is the translation matrix, kept as the
    distance it is built from; the direction is a constant. *)
Record PerfTest := {
  m : float;
  num_iterations : Z;
  current_iteration : Z;
  total_time : float
}.

(** The event loop: the calls of [redraw] that are pending, and what was
    called so far. *)
Record tk := {
  pending : nat;
  trace : list event
}.

Inductive input :=
  | Timer
  | Report (t : float).

Definition emit (evs : list event) (t : tk) : tk :=
  {| pending := pending t; trace := trace t ++ evs |}.

(** [widget.after(ms, self.redraw)] *)
Definition after (ms : Z) (t : tk) : tk :=
  {| pending := Datatypes.S (pending t); trace := trace t ++ [E_after ms] |}.

(** [x / n] for a float and an [int]: the [int] becomes a float, which can
    overflow, and a zero divisor raises. *)
Definition truediv (x : float) (n : Z) : exception + float :=
  match Py.float_of_int n with
  | inl _ => inl OverflowError
  | inr y => if (y =? 0)%float then inl ZeroDivisionError else inr (x / y)%float
  end.

(** ['%.1f' % x]: the exact value rounded to one decimal, halves to even. *)
Definition format_1f (x : float) : string :=
  match Prim2SF x with
  | S754_nan => "nan"
  | S754_infinity s => if s then "-inf" else "inf"
  | S754_zero s => (if s then "-" else "") +:+ "0.0"
  | S754_finite s m e =>
      let n := Py.round_half_even (Z.pos m * 10) e in
      (if s then "-" else "") +:+ pretty (n / 10) +:+ "." +:+ pretty (n mod 10)
  end.

Definition report_time (t : float) (self : PerfTest) : PerfTest :=
  {| m := m self; num_iterations := num_iterations self;
     current_iteration := current_iteration self;
     total_time := (total_time self + t)%float |}.

Definition redraw (self : PerfTest) (t : tk) : option exception * PerfTest * tk :=
  let self := {| m := m self; num_iterations := num_iterations self;
                 current_iteration := current_iteration self + 1;
                 total_time := total_time self |} in
  if decide (current_iteration self = num_iterations self) then
    let t := emit [E_print ("Total time: " +:+ format_1f (1000 * total_time self) +:+ "ms")] t in
    match truediv (1000 * total_time self) (num_iterations self) with
    | inl e => (Some e, self, t)
    | inr average =>
        (Some (SystemExit 0), self,
         emit [E_print ("Time: " +:+ format_1f average +:+ "ms")] t)
    end
  else
    (None, self,
     after 250 (emit [E_update_view_state (m self); E_redraw_if_initialized] t)).

(** [widget.mainloop()], on what the loop delivers.  A timer that runs out
    calls [redraw] when a call is pending.  The loop ends when [redraw] exits
    or when there is nothing more to deliver. *)
Fixpoint mainloop (inputs : list input) (self : PerfTest) (t : tk)
    : option exception * PerfTest * tk :=
  match inputs with
  | [] => (None, self, t)
  | Report x :: inputs => mainloop inputs (report_time x self) t
  | Timer :: inputs =>
      match pending t with
      | O => mainloop inputs self t
      | Datatypes.S k =>
          match redraw self {| pending := k; trace := trace t |} with
          | (None, self, t) => mainloop inputs self t
          | (Some (SystemExit code), self, t) => (Some (SystemExit code), self, t)
          | (Some e, self, t) =>
              mainloop inputs self (emit [E_report_callback_exception e] t)
          end
      end
  end.

(** [PerfTest(widget, num_iterations)], which returns when [mainloop] does.
    There is no object when the constructor raises before [mainloop]. *)
Definition __init__ (num_iterations : Z) (inputs : list input)
    : option exception * option PerfTest * tk :=
  let t := {| pending := 0; trace := [] |} in
  match truediv 0.1 num_iterations with
  | inl e => (Some e, None, t)
  | inr distance =>
      let self := {| m := distance; num_iterations := num_iterations;
                     current_iteration := 0; total_time := 0.0 |} in
      let t := emit [E_focus_set; E_mainloop] (after 250 t) in
      let '(r, self, t) := mainloop inputs self t in
      (r, Some self, t)
  end.

(** The timers among the inputs, and the sum of the times reported, added in
    the order they came. *)
Fixpoint timers (inputs : list input) : nat :=
  match inputs with
  | [] => O
  | Timer :: inputs => Datatypes.S (timers inputs)
  | Report _ :: inputs => timers inputs
  end.

Definition reported_from (start : float) (inputs : list input) : float :=
  fold_left (fun acc i => match i with Report x => (acc + x)%float | Timer => acc end)
    inputs start.

Definition reported : list input -> float := reported_from 0.0.

(** The calls of one frame of the test. *)
Definition frame_events (distance : float) : list event :=
  [E_update_view_state distance; E_redraw_if_initialized; E_after 250].

Fixpoint frames (n : nat) (distance : float) : list event :=
  match n with
  | O => []
  | Datatypes.S n => frame_events distance ++ frames n distance
  end.

End PerfTest.
(** * The GUI checks of [sage_helper.py]

    [tk_works] and [cyopen_gl_works] keep their answers in the module's
    dictionary [_gui_status].  What they find out depends on the machine at
    the time of the call: whether [tkinter] can be imported and a root window
    made, and whether [snappy.CyOpenGL] can be imported. *)

Module sage_helper.

Record machine := {
  tk_available : bool;
  cyopengl_available : bool
}.

(** The attempts made on the machine, with their outcome. *)
Inductive event :=
  | E_Tk (ok : bool)
  | E_import_CyOpenGL (ok : bool).

Record globals := {
  _gui_status : gmap string bool;
  trace : list event
}.

Definition getitem (d : gmap string bool) (k : string) : Py.result bool :=
  match d !! k with
  | Some b => inr b
  | None => inl Py.KeyError
  end.

Definition setitem (k : string) (b : bool) (evs : list event) (g : globals) : globals :=
  {| _gui_status := <[k := b]> (_gui_status g); trace := trace g ++ evs |}.

Definition tk_works (env : machine) (g : globals) : Py.result bool * globals :=
  let g :=
    match _gui_status g !! "tk"%string with
    | None => setitem "tk" (tk_available env) [E_Tk (tk_available env)] g
    | Some _ => g
    end in
  (getitem (_gui_status g) "tk", g).

Definition cyopen_gl_works (env : machine) (g : globals) : Py.result bool * globals :=
  match _gui_status g !! "cyopengl"%string with
  | None =>
      match tk_works env g with
      | (inl e, g) => (inl e, g)
      | (inr true, g) =>
          let g := setitem "cyopengl" (cyopengl_available env)
                     [E_import_CyOpenGL (cyopengl_available env)] g in
          (getitem (_gui_status g) "cyopengl", g)
      | (inr false, g) =>
          let g := setitem "cyopengl" false [] g in
          (getitem (_gui_status g) "cyopengl", g)
      end
  | Some _ => (getitem (_gui_status g) "cyopengl", g)
  end.

(** The module as loaded. *)
Definition loaded : globals := {| _gui_status := ∅; trace := [] |}.

(** A sequence of calls of the two checks, each on the machine as it is
    then. *)
Inductive call :=
  | Tk_works
  | Cyopen_gl_works.

Definition key (c : call) : string :=
  match c with
  | Tk_works => "tk"
  | Cyopen_gl_works => "cyopengl"
  end.

Definition call_on (c : call) : machine -> globals -> Py.result bool * globals :=
  match c with
  | Tk_works => tk_works
  | Cyopen_gl_works => cyopen_gl_works
  end.

Fixpoint calls (cs : list (call * machine)) (g : globals)
    : list (Py.result bool) * globals :=
  match cs with
  | [] => ([], g)
  | (c, env) :: cs =>
      let '(r, g) := call_on c env g in
      let '(rs, g) := calls cs g in
      (r :: rs, g)
  end.

(** The states the dictionary can be in, with the attempts that lead there. *)
Inductive status : globals -> Prop :=
  | status_loaded : status loaded
  | status_tk (b : bool) :
      status {| _gui_status := {[ "tk"%string := b ]}; trace := [E_Tk b] |}
  | status_cyopengl (c : bool) :
      status {| _gui_status := <[ "cyopengl"%string := c ]> {[ "tk"%string := true ]};
                trace := [E_Tk true; E_import_CyOpenGL c] |}
  | status_no_tk :
      status {| _gui_status := <[ "cyopengl"%string := false ]> {[ "tk"%string := false ]};
                trace := [E_Tk false] |}.

End sage_helper.
(** * The save dialog of [filedialog.py] *)

Module filedialog.

(** The value of a keyword option: a string, or another object such as the
    parent window or the list of file types. *)
Inductive value :=
  | Str (s : string)
  | Obj (name : string).

(** The call of [tkFileDialog.asksaveasfile] that is made. *)
Record dialog := {
  mode : string;
  options : gmap string value
}.

(** [a < b] on strings: character by character, by code. *)
Definition str_lt (a b : string) : bool :=
  match String.compare a b with
  | Lt => true
  | _ => false
  end.

(** [d.pop(k)], for what is left of [d]. *)
Definition pop (k : string) (d : gmap string value) : Py.result (gmap string value) :=
  match d !! k with
  | Some _ => inr (delete k d)
  | None => inl Py.KeyError
  end.

(** [a + v] for a string [a]. *)
Definition add (a : string) (v : value) : Py.result string :=
  match v with
  | Str s => inr (a +:+ s)
  | Obj _ => inl Py.TypeError
  end.

(** [platform] is [sys.platform] and [mac_ver] is [platform.mac_ver()[0]]. *)
Definition asksaveasfile (platform mac_ver : string) (mode : string)
    (options : gmap string value) : Py.result dialog :=
  if decide (platform = "darwin"%string) then
    match (if str_lt mac_ver "10.15.2" then pop "parent" options else inr options) with
    | inl e => inl e
    | inr options =>
        match options !! "defaultextension"%string, options !! "initialfile"%string with
        | Some extension, None =>
            match add "untitled" extension with
            | inl e => inl e
            | inr name =>
                inr {| mode := mode;
                       options := <[ "initialfile"%string := Str name ]> options |}
            end
        | _, _ => inr {| mode := mode; options := options |}
        end
    end
  else inr {| mode := mode; options := options |}.

(** The call at the end of the module: [asksaveasfile(defaultextension='.txt')]. *)
Definition main (platform mac_ver : string) : Py.result dialog :=
  asksaveasfile platform mac_ver "w" {[ "defaultextension"%string := Str ".txt" ]}.

End filedialog.
(** * The build script [SnapPyApp/make.py]

    A Python 2 script, run from top to bottom.  [os.system] returns the exit
    status of its command and the script never looks at it.  [os.chdir]
    raises [OSError] when it cannot enter the directory; whether it can is up
    to the machine.  The script changes to each of its three directories
    once, so the machine is asked by path: [dirs path] tells whether the
    [os.chdir(path)] of the script succeeds at the time it is made. *)

Module make.

Inductive exception :=
  | OSError
  | KeyError
  | NameError.

Inductive event :=
  | E_chdir (path : string)
  | E_system (command : string)
  | E_print (s : string).

Definition python26 : string :=
  "/Library/Frameworks/Python.framework/Versions/2.6/bin/python".
Definition python27 : string :=
  "/Library/Frameworks/Python.framework/Versions/2.7/bin/python".

(** A run of statements: the exception that ended it, if any, and what was
    called.  After an exception nothing more is done. *)
Definition run : Type := (option exception * list event)%type.

Definition then_ (r : run) (statement : list event -> run) : run :=
  match r with
  | (None, trace) => statement trace
  | (Some e, trace) => (Some e, trace)
  end.

Definition chdir (dirs : string -> bool) (path : string) (trace : list event) : run :=
  (if dirs path then None else Some OSError, trace ++ [E_chdir path]).

Definition system (command : string) (trace : list event) : run :=
  (None, trace ++ [E_system command]).

Definition for_ {A} (l : list A) (body : A -> list event -> run) (trace : list event) : run :=
  fold_left (fun r x => then_ r (body x)) l (None, trace).

Definition scp (address : string) : string :=
  "scp -p SnapPy.dmg ../../dist/*.egg " +:+ address +:+ ":/home/www/t3m/public_html/SnapPy-nest".

(** The statements before [USER] is read. *)
Definition build_and_package (dirs : string -> bool) : run :=
  then_ (then_ (then_ (then_ (then_ (then_ (then_ (then_
    (chdir dirs "../" [])
    (system (python27 +:+ " setup.py clean")))
    (for_ [python26; python27] (fun python trace =>
       then_ (system (python +:+ " setup.py install") trace)
             (system (python +:+ " setup.py build_docs install")))))
    (chdir dirs "SnapPyApp"))
    (system (python27 +:+ " setup.py clean py2app")))
    (system "rm -rf dist/SnapPy.app/Contents/Frameworks/Tcl.framework/Versions/8.4/Resources/English.lproj/ActiveTcl-8.4"))
    (system "rm -rf dist/SnapPy.app/Contents/Frameworks/Tk.framework/Versions/8.4/Resources/Scripts/demos"))
    (chdir dirs "dmg-maker"))
    (system "./dmg-maker.py").

(** The script, on the machine's directories and [os.environ].  [address] is
    a name that is bound only in the two [if]s. *)
Definition script (dirs : string -> bool) (environ : gmap string string) : run :=
  then_ (build_and_package dirs) (fun trace =>
    match environ !! "USER"%string with
    | None => (Some KeyError, trace)
    | Some user =>
        let '(address, trace) :=
          if bool_decide (user ∈ ["nmd"; "dunfield"]%string)
          then (Some "t3m@shell.math.uic.edu"%string,
                trace ++ [E_print "Hi there Nathan..."])
          else (None, trace) in
        let '(address, trace) :=
          if bool_decide (user = "culler"%string)
          then (Some "culler@threlfall.math.uic.edu"%string,
                trace ++ [E_print "Hi there Marc..."])
          else (address, trace) in
        match address with
        | None => (Some NameError, trace)
        | Some address => system (scp address) trace
        end
    end).

(** The calls of a run in which every directory is there. *)
Definition build : list event :=
  [ E_chdir "../";
    E_system (python27 +:+ " setup.py clean");
    E_system (python26 +:+ " setup.py install");
    E_system (python26 +:+ " setup.py build_docs install");
    E_system (python27 +:+ " setup.py install");
    E_system (python27 +:+ " setup.py build_docs install");
    E_chdir "SnapPyApp";
    E_system (python27 +:+ " setup.py clean py2app");
    E_system "rm -rf dist/SnapPy.app/Contents/Frameworks/Tcl.framework/Versions/8.4/Resources/English.lproj/ActiveTcl-8.4";
    E_system "rm -rf dist/SnapPy.app/Contents/Frameworks/Tk.framework/Versions/8.4/Resources/Scripts/demos";
    E_chdir "dmg-maker";
    E_system "./dmg-maker.py" ].

Definition uploads (e : event) : Prop :=
  exists address, e = E_system (scp address).

End make.

(** * Properties *)

(** ** Python's arithmetic on some floats *)

Example format_3f_values :
  Py.format_3f 2.0299%float = "2.030"%string /\
  Py.format_3f 0.0625%float = "0.062"%string /\
  Py.format_3f (-0.0001)%float = "-0.000"%string /\
  Py.format_3f 123456.7895%float = "123456.789"%string.
Proof. repeat split; reflexivity. Qed.

Example round_values :
  Py.round 2.5%float = inr 2 /\ Py.round 3.5%float = inr 4 /\
  Py.round (-0.5)%float = inr 0 /\ Py.round (-2.51)%float = inr (-3) /\
  Py.round nan = inl Py.ValueError /\ Py.round infinity = inl Py.OverflowError.
Proof. repeat split; reflexivity. Qed.

Example float_of_int_values :
  Py.float_of_int 15 = inr 15%float /\
  Py.float_of_int (2 ^ 53 + 1) = inr 9007199254740992%float /\
  Py.float_of_int (2 ^ 1024) = inl Py.OverflowError.
Proof. repeat split; reflexivity. Qed.

Example getitem_values :
  Py.getitem _solution_type_text 2 = inr "non-geometric"%string /\
  Py.getitem _solution_type_text (-1) = inr "degenerate"%string /\
  Py.getitem _solution_type_text 7 = inl Py.IndexError.
Proof. repeat split; reflexivity. Qed.

Section Facts.

Context {S : Type} `{Manifold S}.

#[local] Abbreviation W := (RaytracingWidget S).
#[local] Notation "x <- m ;; k" := (bind m (fun x => k))
  (at level 100, m at next level, right associativity).
#[local] Notation "m ;;; k" := (bind m (fun _ => k))
  (at level 100, right associativity).

(** ** Running a computation, step by step *)

Lemma bind_run {A B} (m : M S A) (k : A -> M S B) (w : W) :
  bind m k w = match m w with
               | (inr a, w') => k a w'
               | (inl e, w') => (inl e, w')
               end.
Proof. reflexivity. Qed.

Lemma try_except_run {A} (body : M S A) cls handler (w : W) :
  try_except body cls handler w =
    match body w with
    | (inl e, w') => if cls e then handler e w' else (inl e, w')
    | (inr a, w') => (inr a, w')
    end.
Proof. unfold try_except. destruct (body w) as [[e|a] w']; reflexivity. Qed.

Lemma emit_run e (w : W) : emit e w = (inr tt, add_events [e] w).
Proof. reflexivity. Qed.

Lemma gets_run {A} (f : W -> A) (w : W) : gets f w = (inr (f w), w).
Proof. reflexivity. Qed.

Lemma ret_run {A} (a : A) (w : W) : ret a w = (inr a, w).
Proof. reflexivity. Qed.

Lemma lift_run {A} (r : Py.result A) (w : W) : lift r w = (r, w).
Proof. reflexivity. Qed.

Lemma raise_run {A} e (w : W) : @raise S A e w = (inl e, w).
Proof. reflexivity. Qed.

Lemma modify_run f (w : W) : modify f w = (inr tt, f w).
Proof. reflexivity. Qed.

Lemma deref_run l (w : W) s : heap w !! l = Some s -> deref l w = (inr s, w).
Proof. intros Hs. unfold deref. by rewrite Hs. Qed.

Lemma deref_none l (w : W) : heap w !! l = None -> deref l w = (inl Py.RuntimeError, w).
Proof. intros Hs. unfold deref. by rewrite Hs. Qed.

(** One step of a run: open the outermost bind and reduce. *)
Ltac fields :=
  cbn [heap manifold dicts filling_controllers vol_label fillings_changed_callback trace
       add_events set_trace set_heap set_vol_label set_dicts set_filling_controllers
       fst snd].

Ltac mstep :=
  first [ rewrite bind_run | rewrite try_except_run
        | rewrite emit_run | rewrite gets_run | rewrite ret_run | rewrite lift_run
        | rewrite raise_run | rewrite modify_run ];
  cbv beta iota; fields.

Ltac msteps := repeat mstep.

(** Two states are equal when their fields are. *)
Ltac same_state :=
  unfold add_events, set_trace, set_heap, set_vol_label, set_dicts, set_filling_controllers;
  fields; rewrite <- ?app_assoc; reflexivity.

Lemma manifold_volume_run l (w : W) s :
  heap w !! l = Some s ->
  manifold_volume l w = (volume s, add_events [E_volume l] w).
Proof.
  intros Hs. unfold manifold_volume. msteps.
  rewrite (deref_run _ _ s) by exact Hs. destruct (volume s); reflexivity.
Qed.

Lemma manifold_solution_type_run l (w : W) s :
  heap w !! l = Some s ->
  manifold_solution_type l w = (inr (solution_type s), add_events [E_solution_type l] w).
Proof.
  intros Hs. unfold manifold_solution_type. msteps.
  rewrite (deref_run _ _ s) by exact Hs. reflexivity.
Qed.

Lemma update_volume_label_run (w : W) (s : S) (vol_text sol_text : string) :
  heap w !! manifold w = Some s ->
  vol_text_of (volume s) = inr vol_text ->
  Py.getitem _solution_type_text (solution_type s) = inr sol_text ->
  update_volume_label w =
    (inr tt,
     match vol_label w with
     | Some _ =>
         set_vol_label (Some (vol_label_text vol_text sol_text))
           (add_events [E_volume (manifold w); E_solution_type (manifold w);
                        E_vol_label_configure (vol_label_text vol_text sol_text)] w)
     | None => add_events [E_volume (manifold w); E_solution_type (manifold w)] w
     end).
Proof.
  intros Hs Hv Hg. unfold update_volume_label.
  msteps. rewrite (manifold_volume_run _ _ s) by exact Hs.
  destruct (volume s) as [e|v]; [destruct e|]; simplify_eq/=; msteps.
  all: rewrite (manifold_solution_type_run _ _ s) by exact Hs; msteps.
  all: rewrite Hg; msteps.
  all: unfold vol_label_configure; msteps.
  all: destruct (vol_label w) eqn:Hl; msteps.
  all: same_state.
Qed.

(** ** Relations every run respects *)

Lemma respects_ret (R : relation W) `{!Reflexive R} {A} (a : A) : respects R (ret (S:=S) a).
Proof. intros w. reflexivity. Qed.

Lemma respects_raise (R : relation W) `{!Reflexive R} {A} e : respects R (@raise S A e).
Proof. intros w. reflexivity. Qed.

Lemma respects_lift (R : relation W) `{!Reflexive R} {A} (r : Py.result A) : respects R (lift (S:=S) r).
Proof. intros w. reflexivity. Qed.

Lemma respects_gets (R : relation W) `{!Reflexive R} {A} (f : W -> A) : respects R (gets f).
Proof. intros w. reflexivity. Qed.

Lemma respects_deref (R : relation W) `{!Reflexive R} l : respects R (deref l).
Proof. intros w. unfold deref. destruct (heap w !! l); reflexivity. Qed.

Lemma respects_dict_getitem (R : relation W) `{!Reflexive R} d k : respects R (dict_getitem d k).
Proof. intros w. unfold dict_getitem. destruct (dicts w !! (d, k)); reflexivity. Qed.

Lemma respects_modify (R : relation W) f : (forall w, R w (f w)) -> respects R (modify f).
Proof. intros Hf w. apply Hf. Qed.

Lemma respects_emit (R : relation W) e :
  (forall w, R w (add_events [e] w)) -> respects R (emit e).
Proof. intros He w. apply He. Qed.

Lemma respects_bind (R : relation W) `{!Transitive R} {A B} (m : M S A) (k : A -> M S B) :
  respects R m -> (forall a, respects R (k a)) -> respects R (bind m k).
Proof.
  intros Hm Hk w. rewrite bind_run. specialize (Hm w).
  destruct (m w) as [[e|a] w1]; [exact Hm|].
  etransitivity; [exact Hm|apply Hk].
Qed.

Lemma respects_try_except (R : relation W) `{!Transitive R} {A} (body : M S A) cls handler :
  respects R body -> (forall e, respects R (handler e)) ->
  respects R (try_except body cls handler).
Proof.
  intros Hb Hh w. rewrite try_except_run. specialize (Hb w).
  destruct (body w) as [[e|a] w1]; [|exact Hb].
  destruct (cls e); [|exact Hb].
  etransitivity; [exact Hb|apply Hh].
Qed.

Lemma respects_for (R : relation W) `{!PreOrder R} {A} (l : list A) (body : A -> M S unit) :
  (forall x, respects R (body x)) -> respects R (for_ l body).
Proof.
  intros Hb. induction l as [|x l IH]; simpl.
  - apply respects_ret; apply _.
  - apply respects_bind; [apply _|apply Hb|intros _; exact IH].
Qed.

Lemma respects_list_comprehension (R : relation W) `{!PreOrder R} {A B} (l : list A) (body : A -> M S B) :
  (forall x, respects R (body x)) -> respects R (list_comprehension l body).
Proof.
  intros Hb. induction l as [|x l IH]; simpl.
  - apply respects_ret; apply _.
  - apply respects_bind; [apply _|apply Hb|intros y].
    apply respects_bind; [apply _|exact IH|intros ys]. apply respects_ret; apply _.
Qed.

#[local] Instance extends_by_preorder P : PreOrder (extends_by (S:=S) P).
Proof.
  split.
  - intros w. exists []. by rewrite app_nil_r.
  - intros w1 w2 w3 (e1 & H1 & P1) (e2 & H2 & P2). exists (e1 ++ e2).
    rewrite H2, H1, app_assoc. split; [done|]. by apply Forall_app.
Qed.

#[local] Instance same_dicts_preorder : PreOrder (same_dicts (S:=S)).
Proof.
  split.
  - intros w. reflexivity.
  - intros w1 w2 w3 H1 H2. unfold same_dicts in *. congruence.
Qed.

#[local] Instance display_only_preorder : PreOrder (display_only (S:=S)).
Proof.
  split.
  - intros w. by repeat split.
  - intros w1 w2 w3 (?&?&?&?) (?&?&?&?). repeat split; congruence.
Qed.

#[local] Instance heap_agrees_off_preorder l' : PreOrder (heap_agrees_off (S:=S) l').
Proof.
  split.
  - intros w l _. reflexivity.
  - intros w1 w2 w3 H1 H2 l Hl. rewrite H2, H1; done.
Qed.

(** Walk through a computation: binds, handlers and loops by the lemmas
    above, a case distinction where the code branches, and [leaf] on what is
    left. *)
Ltac respects_with leaf :=
  repeat first
    [ apply respects_ret; [apply _]
    | apply respects_raise; [apply _]
    | apply respects_lift; [apply _]
    | apply respects_gets; [apply _]
    | apply respects_deref; [apply _]
    | apply respects_dict_getitem; [apply _]
    | apply respects_bind; [apply _ | | intros ?]
    | apply respects_try_except; [apply _ | | intros ?]
    | apply respects_for; [apply _ | intros ?]
    | apply respects_list_comprehension; [apply _ | intros ?]
    | apply respects_emit; intros ?; leaf
    | apply respects_modify; intros ?; leaf
    | match goal with
      | |- respects _ (match ?x with _ => _ end) => destruct x
      end ].

Ltac unfold_widget :=
  unfold pull_fillings_from_manifold, push_fillings_to_manifold,
    recompute_hyperbolic_structure, round_fillings, finish,
    _fillings_from_manifold, update_filling_sliders, update_volume_label,
    call_fillings_changed_callback, filling_getitem, filling_setitem,
    UniformDictController_update, get_value, set_value, vol_label_configure,
    recompute_raytracing_data_and_redraw, redraw_if_initialized,
    manifold_num_cusps, manifold_cusp_info, manifold_dehn_fill,
    manifold_init_hyperbolic_structure, manifold_volume, manifold_solution_type,
    manifold_cusp_area_matrix, manifold_hasattr_cusp_area_matrix, store,
    dict_setitem, dict_new.

Ltac respects_all leaf := repeat (respects_with leaf; try progress unfold_widget).

Lemma events_of_extends {A} P (m : M S A) (w : W) :
  extends_by P w (m w).2 -> Forall P (events_of m w).
Proof.
  intros (evs & Ht & HP). unfold events_of. rewrite Ht.
  by rewrite drop_app_length.
Qed.

Lemma events_of_trace {A} (m : M S A) (w : W) evs :
  trace (m w).2 = trace w ++ evs -> events_of m w = evs.
Proof. intros Ht. unfold events_of. rewrite Ht. by rewrite drop_app_length. Qed.

Ltac extends_leaf :=
  first [ (eexists [_]; split; [reflexivity|]; constructor; [simpl; done|constructor])
        | (exists []; split; [by rewrite app_nil_r|constructor]) ].

(** ** Pulling the fillings *)

(** C7: pulling the fillings from the manifold reads the manifold and
    refreshes the sliders, the view and the label, and nothing else: no call of
    the run, whether it returns or raises, is the update callback of a
    binding, the fillings-changed notification or a [dehn_fill]. *)
Theorem pull_fillings_from_manifold_calls_nothing_back (w : W) :
  Forall (fun e =>
            reads_or_displays e /\
            (forall f, e <> E_update_function f) /\
            (forall f, e <> E_call f) /\
            (forall l fillings, e <> E_dehn_fill l fillings))
    (events_of pull_fillings_from_manifold w).
Proof.
  assert (respects (extends_by reads_or_displays) pull_fillings_from_manifold) as Hr.
  { unfold_widget. respects_all extends_leaf. }
  eapply Forall_impl; [exact (events_of_extends _ _ _ (Hr w))|].
  intros e He. split; [exact He|].
  repeat split; intros; intros ->; exact He.
Qed.

(** ** The label *)

Lemma solution_type_text_table (c : Z) :
  0 <= c <= 6 ->
  exists sol_text,
    Py.getitem _solution_type_text c = inr sol_text /\
    [ "degenerate"; "geometric"; "non-geometric"; "flat";
      "degenerate"; "degenerate"; "degenerate" ]%string !! Z.to_nat c = Some sol_text.
Proof.
  intros Hc.
  assert (c = 0 \/ c = 1 \/ c = 2 \/ c = 3 \/ c = 4 \/ c = 5 \/ c = 6) as Hcases by lia.
  destruct Hcases as [->|[->|[->|[->|[->|[->| ->]]]]]]; eexists; split; reflexivity.
Qed.

(** C1: for a status code [c] of the kernel with [0 <= c <= 6], the
    solution-type text that [update_volume_label] puts into the label is the
    [c]-th entry of the table degenerate, geometric, non-geometric, flat,
    degenerate, degenerate, degenerate. *)
Theorem update_volume_label_solution_type (w : W) (s : S) (c : Z) (vol_text old : string) :
  heap w !! manifold w = Some s ->
  vol_label w = Some old ->
  vol_text_of (volume s) = inr vol_text ->
  solution_type s = c ->
  0 <= c <= 6 ->
  exists sol_text,
    [ "degenerate"; "geometric"; "non-geometric"; "flat";
      "degenerate"; "degenerate"; "degenerate" ]%string !! Z.to_nat c = Some sol_text /\
    (update_volume_label w).1 = inr tt /\
    vol_label (update_volume_label w).2
      = Some ("Vol: " +:+ vol_text +:+ " (" +:+ sol_text +:+ ")").
Proof.
  intros Hs Hl Hv Hc Hrange.
  destruct (solution_type_text_table c Hrange) as (sol_text & Hget & Htable).
  exists sol_text. split; [exact Htable|].
  rewrite (update_volume_label_run w s vol_text sol_text) by (rewrite ?Hc; assumption).
  rewrite Hl. split; reflexivity.
Qed.

(** C2: when [volume()] raises [ValueError] the label shows ["-"] for the
    volume and [update_volume_label] returns; when [volume()] is 2.0299 the
    label shows ["2.030"]. *)
Theorem update_volume_label_volume (w : W) (s : S) (sol_text old : string) :
  heap w !! manifold w = Some s ->
  vol_label w = Some old ->
  Py.getitem _solution_type_text (solution_type s) = inr sol_text ->
  (volume s = inl Py.ValueError ->
     (update_volume_label w).1 = inr tt /\
     vol_label (update_volume_label w).2 = Some ("Vol: " +:+ "-" +:+ " (" +:+ sol_text +:+ ")")) /\
  (volume s = inr 2.0299%float ->
     (update_volume_label w).1 = inr tt /\
     vol_label (update_volume_label w).2 = Some ("Vol: " +:+ "2.030" +:+ " (" +:+ sol_text +:+ ")")).
Proof.
  intros Hs Hl Hg. split; intros Hv.
  - rewrite (update_volume_label_run w s "-" sol_text); [|assumption|by rewrite Hv|assumption].
    rewrite Hl. split; reflexivity.
  - rewrite (update_volume_label_run w s "2.030" sol_text); [|assumption|by rewrite Hv|assumption].
    rewrite Hl. split; reflexivity.
Qed.

(** ** Calls on a manifold object, run *)

Lemma manifold_num_cusps_run l (w : W) s :
  heap w !! l = Some s ->
  manifold_num_cusps l w = (inr (num_cusps s), add_events [E_num_cusps l] w).
Proof.
  intros Hs. unfold manifold_num_cusps. msteps.
  rewrite (deref_run _ _ s) by exact Hs. reflexivity.
Qed.

Lemma manifold_cusp_info_run l (w : W) s :
  heap w !! l = Some s ->
  manifold_cusp_info l w = (inr (cusp_info s), add_events [E_cusp_info l] w).
Proof.
  intros Hs. unfold manifold_cusp_info. msteps.
  rewrite (deref_run _ _ s) by exact Hs. reflexivity.
Qed.

Lemma manifold_dehn_fill_run l fs (w : W) s :
  heap w !! l = Some s ->
  manifold_dehn_fill l fs w =
    match dehn_fill fs s with
    | inr s' => (inr tt, set_heap (<[l := s']> (heap w)) (add_events [E_dehn_fill l fs] w))
    | inl e => (inl e, add_events [E_dehn_fill l fs] w)
    end.
Proof.
  intros Hs. unfold manifold_dehn_fill, store. msteps.
  rewrite (deref_run _ _ s) by exact Hs. msteps.
  destruct (dehn_fill fs s); msteps; reflexivity.
Qed.

Lemma manifold_init_hyperbolic_structure_run l b (w : W) s :
  heap w !! l = Some s ->
  manifold_init_hyperbolic_structure l b w =
    match init_hyperbolic_structure b s with
    | inr s' => (inr tt, set_heap (<[l := s']> (heap w))
                           (add_events [E_init_hyperbolic_structure l b] w))
    | inl e => (inl e, add_events [E_init_hyperbolic_structure l b] w)
    end.
Proof.
  intros Hs. unfold manifold_init_hyperbolic_structure, store. msteps.
  rewrite (deref_run _ _ s) by exact Hs. msteps.
  destruct (init_hyperbolic_structure b s); msteps; reflexivity.
Qed.

Lemma manifold_cusp_area_matrix_run l method (w : W) s :
  heap w !! l = Some s ->
  manifold_cusp_area_matrix l method w =
    (cusp_area_matrix method s, add_events [E_cusp_area_matrix l method] w).
Proof.
  intros Hs. unfold manifold_cusp_area_matrix. msteps.
  rewrite (deref_run _ _ s) by exact Hs. destruct (cusp_area_matrix method s); reflexivity.
Qed.

Lemma list_comprehension_lift {A B} (f : A -> Py.result B) l ys (w : W) :
  Forall2 (fun x y => f x = inr y) l ys ->
  list_comprehension l (fun x => lift (f x)) w = (inr ys, w).
Proof.
  induction 1 as [|x y l ys Hx _ IH]; simpl; [reflexivity|].
  msteps. rewrite Hx. msteps. rewrite IH. msteps. reflexivity.
Qed.

Lemma dict_getitem_run d k (w : W) u :
  dicts w !! (d, k) = Some u -> dict_getitem d k w = (inr u, w).
Proof. intros Hu. unfold dict_getitem. by rewrite Hu. Qed.

(** A lookup in a heap that was written to. *)
Ltac heap_lookup :=
  unfold add_events, set_trace, set_heap, set_vol_label, set_dicts, set_filling_controllers;
  fields;
  repeat first [ rewrite lookup_insert_eq
               | rewrite lookup_insert_ne by (first [done | by apply not_eq_sym]) ];
  first [ reflexivity | eassumption ].

(** ** The maximal cusp area *)

Lemma manifold_copy_run l (w : W) s :
  heap w !! l = Some s ->
  manifold_copy l w =
    let l' := fresh (dom (heap w)) in
    match copy s with
    | inr s' => (inr l', set_heap (<[l' := s']> (heap w)) (add_events [E_copy l l'] w))
    | inl e => (inl e, add_events [E_copy l l'] w)
    end.
Proof.
  intros Hs. unfold manifold_copy, store. msteps.
  rewrite (deref_run _ _ s) by exact Hs. msteps.
  destruct (copy s) as [e|s']; msteps; reflexivity.
Qed.

Lemma fresh_loc_ne (w : W) l s : heap w !! l = Some s -> l <> fresh (dom (heap w)).
Proof.
  intros Hs ->. apply (is_fresh (dom (heap w))). apply elem_of_dom. eauto.
Qed.

Ltac heap_leaf :=
  intros ? ?; unfold add_events, set_trace, set_heap, set_vol_label, set_dicts,
    set_filling_controllers; fields; rewrite ?lookup_insert_ne by done; done.

(** C10: computing the maximal cusp area leaves every manifold object that
    exists alone, the caller's among them: each keeps its state, and the only
    [dehn_fill] and [init_hyperbolic_structure] of the run are the unfilling
    of all cusps and the forced recomputation on the new object that [copy]
    made.  Without a [cusp_area_matrix] method the result is 5.0 and nothing
    at all happens. *)
Theorem _maximal_cusp_area_leaves_manifold (w : W) (mfd : loc) (s : S) :
  heap w !! mfd = Some s ->
  let l' := fresh (dom (heap w)) in
  (forall l s0, heap w !! l = Some s0 ->
     l <> l' /\ heap (_maximal_cusp_area mfd w).2 !! l = Some s0) /\
  Forall (on_copy l') (events_of (_maximal_cusp_area mfd) w) /\
  (has_cusp_area_matrix s = false -> _maximal_cusp_area mfd w = (inr 5.0%float, w)).
Proof.
  intros Hs l'. unfold events_of, _maximal_cusp_area, manifold_hasattr_cusp_area_matrix.
  msteps. rewrite (deref_run _ _ s) by exact Hs. msteps.
  destruct (has_cusp_area_matrix s) eqn:Hhas; cbn [negb].
  2:{ msteps. split; [|split; [|reflexivity]].
      - intros l s0 Hl. split; [by eapply fresh_loc_ne|exact Hl].
      - by rewrite drop_all. }
  match goal with
  | |- context [bind (manifold_copy mfd) ?k] => set (body := k)
  end.
  assert (respects (heap_agrees_off l') (body l')) as Hheap.
  { unfold body. unfold_widget. respects_all heap_leaf. }
  assert (respects (extends_by (on_copy l')) (body l')) as Hev.
  { unfold body. unfold_widget.
    respects_all ltac:(first
      [ (eexists [_]; split; [reflexivity|]; constructor; [simpl; eauto|constructor])
      | (exists []; split; [by rewrite app_nil_r|constructor]) ]). }
  rewrite try_except_run, bind_run, (manifold_copy_run _ _ s) by exact Hs.
  fold l'. cbv zeta.
  destruct (copy s) as [e|s1]; cbv beta iota.
  - msteps. split; [|split; [|discriminate]].
    + intros l s0 Hl. split; [by eapply fresh_loc_ne|exact Hl].
    + rewrite <- app_assoc, drop_app_length. by repeat constructor.
  - specialize (Hheap (set_heap (<[l' := s1]> (heap w)) (add_events [E_copy mfd l'] w))).
    specialize (Hev (set_heap (<[l' := s1]> (heap w)) (add_events [E_copy mfd l'] w))).
    destruct (body l' _) as [[e|a] w2]; cbn [snd] in *; msteps.
    all: destruct Hev as (evs & Ht & HP); cbn [trace set_heap add_events set_trace] in Ht.
    all: rewrite ?Ht, <- ?app_assoc, drop_app_length.
    all: split; [|split; [|discriminate]].
    all: try (intros l s0 Hl; pose proof (fresh_loc_ne _ _ _ Hl) as Hne; fold l' in Hne;
              split; [exact Hne|];
              rewrite (Hheap l Hne); cbn [heap set_heap]; by rewrite lookup_insert_ne).
    all: apply Forall_app; split; [by repeat constructor|]; try exact HP.
    apply Forall_app; split; [exact HP|by repeat constructor].
Qed.

Lemma _maximal_cusp_area_run (w : W) (mfd : loc) (s s1 s2 s3 : S) :
  heap w !! mfd = Some s ->
  has_cusp_area_matrix s = true ->
  copy s = inr s1 ->
  dehn_fill (replicate (num_cusps s1) [0; 0]%float) s1 = inr s2 ->
  init_hyperbolic_structure true s2 = inr s3 ->
  exists w1,
    manifold w1 = manifold w /\ heap w1 !! mfd = Some s /\
    _maximal_cusp_area mfd w =
      match cusp_area_matrix "trigDependent" s3 with
      | inr m =>
          try_except
            (diagonal <- list_comprehension (seq 0 (num_cusps s3))
                           (fun i => lift (matrix_getitem m i i)) ;;
             a <- lift (Py.max diagonal) ;;
             lift (Py.sqrt a))
            (fun _ => true)
            (fun e =>
               emit (E_print "Exception while trying to compute maximal cusp area:" e) ;;;
               ret 5.0%float)
            (add_events [E_num_cusps (fresh (dom (heap w)))] w1)
      | inl e =>
          (inr 5.0%float,
           add_events [E_print "Exception while trying to compute maximal cusp area:" e] w1)
      end.
Proof.
  intros Hs Hhas Hcopy Hfill Hinit.
  pose proof (fresh_loc_ne _ _ _ Hs) as Hne.
  destruct w as [h l d cs vl cb tr]. cbn [heap manifold] in *.
  remember (fresh (dom h)) as l' eqn:Hl'.
  exists {| heap := <[l' := s3]> (<[l' := s2]> (<[l' := s1]> h)); manifold := l;
            dicts := d; filling_controllers := cs; vol_label := vl;
            fillings_changed_callback := cb;
            trace := ((((tr ++ [E_copy mfd l']) ++ [E_num_cusps l']) ++
                       [E_dehn_fill l' (replicate (num_cusps s1) [0; 0]%float)]) ++
                      [E_init_hyperbolic_structure l' true]) ++
                     [E_cusp_area_matrix l' "trigDependent"] |}.
  split; [reflexivity|]. split.
  { cbn [heap]. rewrite !lookup_insert_ne by (by apply not_eq_sym). exact Hs. }
  unfold _maximal_cusp_area, manifold_hasattr_cusp_area_matrix.
  rewrite !bind_run, (deref_run _ _ s) by exact Hs. rewrite ret_run. cbv beta iota.
  rewrite Hhas. cbn [negb]. rewrite !try_except_run.
  rewrite bind_run, (manifold_copy_run _ _ s) by exact Hs.
  cbn [heap]. rewrite <- Hl', Hcopy. cbv zeta beta iota.
  unfold add_events, set_trace, set_heap; fields.
  rewrite bind_run, (manifold_num_cusps_run _ _ s1) by (cbn [heap]; apply lookup_insert_eq).
  cbv beta iota. unfold add_events, set_trace; fields.
  rewrite bind_run, (manifold_dehn_fill_run _ _ _ s1) by (cbn [heap]; apply lookup_insert_eq).
  rewrite Hfill. cbv beta iota. unfold add_events, set_trace, set_heap; fields.
  rewrite bind_run, (manifold_init_hyperbolic_structure_run _ _ _ s2)
    by (cbn [heap]; apply lookup_insert_eq).
  rewrite Hinit. cbv beta iota. unfold add_events, set_trace, set_heap; fields.
  rewrite bind_run, (manifold_cusp_area_matrix_run _ _ _ s3)
    by (cbn [heap]; apply lookup_insert_eq).
  unfold add_events, set_trace; fields.
  destruct (cusp_area_matrix "trigDependent" s3) as [e|m]; cbv beta iota.
  - rewrite bind_run, emit_run. cbv beta iota. rewrite ret_run. reflexivity.
  - rewrite bind_run, (manifold_num_cusps_run _ _ s3) by (cbn [heap]; apply lookup_insert_eq).
    cbv beta iota. reflexivity.
Qed.

Lemma create_cusp_areas_frame_run (w w1 : W) (s : S) (a : float) :
  heap w !! manifold w = Some s ->
  _maximal_cusp_area (manifold w) w = (inr a, w1) ->
  manifold w1 = manifold w -> heap w1 !! manifold w = Some s ->
  (create_cusp_areas_frame w).1
    = inr (map (cusp_area_scale (1.05 * a)%float) (seq 0 (num_cusps s))).
Proof.
  intros Hs Hrun Hm Hs1. unfold create_cusp_areas_frame.
  msteps. rewrite Hrun. msteps. rewrite Hm.
  rewrite (manifold_num_cusps_run _ _ s) by exact Hs1. msteps. reflexivity.
Qed.

(** C6, as the code has it: the bound of the cusp area sliders is 1.05 times
    what [_maximal_cusp_area] returns.  That is the square root of the largest
    diagonal entry of [cusp_area_matrix(method='trigDependent')], taken on a
    copy with all cusps unfilled; and when the matrix computation raises, it
    is exactly 5.0, so that the bound of the sliders is 1.05 * 5.0 = 5.25. *)
Theorem create_cusp_areas_frame_bound (w : W) (s s1 s2 s3 : S) :
  heap w !! manifold w = Some s ->
  has_cusp_area_matrix s = true ->
  copy s = inr s1 ->
  dehn_fill (replicate (num_cusps s1) [0; 0]%float) s1 = inr s2 ->
  init_hyperbolic_structure true s2 = inr s3 ->
  (forall m diagonal a r,
     cusp_area_matrix "trigDependent" s3 = inr m ->
     Forall2 (fun i x => matrix_getitem m i i = inr x) (seq 0 (num_cusps s3)) diagonal ->
     Py.max diagonal = inr a ->
     Py.sqrt a = inr r ->
     r = PrimFloat.sqrt a /\
     (_maximal_cusp_area (manifold w) w).1 = inr r /\
     exists frame,
       (create_cusp_areas_frame w).1 = inr frame /\ length frame = num_cusps s /\
       Forall (fun c => udc_to c = (1.05 * r)%float) frame) /\
  (forall e,
     cusp_area_matrix "trigDependent" s3 = inl e ->
     (_maximal_cusp_area (manifold w) w).1 = inr 5.0%float /\
     exists frame,
       (create_cusp_areas_frame w).1 = inr frame /\ length frame = num_cusps s /\
       Forall (fun c => udc_to c = (1.05 * 5.0)%float /\ udc_to c = 5.25%float) frame).
Proof.
  intros Hs Hhas Hcopy Hfill Hinit.
  destruct (_maximal_cusp_area_run w (manifold w) s s1 s2 s3 Hs Hhas Hcopy Hfill Hinit)
    as (w1 & Hm & Hs1 & Hrun).
  split.
  - intros m diagonal a r Hmat Hdiag Hmax Hsqrt.
    rewrite Hmat in Hrun.
    rewrite try_except_run, bind_run, (list_comprehension_lift _ _ diagonal) in Hrun
      by exact Hdiag.
    cbv beta iota in Hrun. rewrite bind_run, lift_run, Hmax in Hrun.
    cbv beta iota in Hrun. rewrite lift_run, Hsqrt in Hrun.
    split; [|split].
    + unfold Py.sqrt in Hsqrt. destruct (a <? 0)%float; congruence.
    + by rewrite Hrun.
    + eexists. split; [eapply create_cusp_areas_frame_run; eauto|].
      split; [by rewrite length_map, length_seq|].
      apply Forall_map, Forall_forall. intros; reflexivity.
  - intros e Hmat. rewrite Hmat in Hrun. split; [by rewrite Hrun|].
    eexists. split; [eapply create_cusp_areas_frame_run; eauto|].
    split; [by rewrite length_map, length_seq|].
    apply Forall_map, Forall_forall. intros; split; reflexivity.
Qed.

(** ** The filling-edit path and the recompute path *)

Ltac display_leaf :=
  unfold display_only, add_events, set_trace, set_heap, set_vol_label, set_dicts,
    set_filling_controllers; fields; done.

Lemma finish_display_only : respects display_only (finish (S:=S)).
Proof. unfold_widget. respects_all display_leaf. Qed.

Lemma finish_run (w : W) (s : S) (vol_text sol_text : string) :
  heap w !! manifold w = Some s ->
  vol_text_of (volume s) = inr vol_text ->
  Py.getitem _solution_type_text (solution_type s) = inr sol_text ->
  exists w',
    finish w = (inr tt, w') /\
    trace w' = trace w ++ finish_events vol_text sol_text w /\
    dicts w' = dicts w /\ heap w' = heap w /\ manifold w' = manifold w.
Proof.
  intros Hs Hv Hg.
  unfold finish, recompute_raytracing_data_and_redraw, call_fillings_changed_callback,
    finish_events, label_events, callback_events.
  destruct (vol_label w) eqn:Hl; destruct (fillings_changed_callback w) eqn:Hcb.
  all: eexists; split;
    [ msteps;
      rewrite (update_volume_label_run _ s vol_text sol_text) by (fields; assumption);
      fields; rewrite Hl; msteps; rewrite Hcb; msteps; reflexivity
    | unfold add_events, set_trace, set_vol_label; fields; rewrite <- ?app_assoc; done ].
Qed.

Lemma push_fillings_to_manifold_run (w : W) (s : S) ty fs :
  heap w !! manifold w = Some s ->
  dicts w !! (Filling_dict, "fillings"%string) = Some (ty, UVecArray fs) ->
  push_fillings_to_manifold w =
    match dehn_fill fs s with
    | inr s' => finish (set_heap (<[manifold w := s']> (heap w))
                          (add_events [E_dehn_fill (manifold w) fs] w))
    | inl e => (inl e, add_events [E_dehn_fill (manifold w) fs] w)
    end.
Proof.
  intros Hs Hd. unfold push_fillings_to_manifold. msteps.
  rewrite (dict_getitem_run _ _ _ _ Hd). msteps. cbn [as_vec_array]. msteps.
  rewrite (manifold_dehn_fill_run _ _ _ s) by exact Hs.
  destruct (dehn_fill fs s); reflexivity.
Qed.

Lemma recompute_hyperbolic_structure_run (w : W) (s : S) :
  heap w !! manifold w = Some s ->
  recompute_hyperbolic_structure w =
    match init_hyperbolic_structure true s with
    | inr s' => finish (set_heap (<[manifold w := s']> (heap w))
                          (add_events [E_init_hyperbolic_structure (manifold w) true] w))
    | inl e => (inl e, add_events [E_init_hyperbolic_structure (manifold w) true] w)
    end.
Proof.
  intros Hs. unfold recompute_hyperbolic_structure. msteps.
  rewrite (manifold_init_hyperbolic_structure_run _ _ _ s) by exact Hs.
  destruct (init_hyperbolic_structure true s); reflexivity.
Qed.

(** C4: a filling edit calls, in this order, [dehn_fill] with the fillings
    of the dictionary, [recompute_raytracing_data_and_redraw], [volume] and
    [solution_type] for the label, the label itself and, last and once, the
    fillings-changed callback when one is registered and none otherwise.  When
    [dehn_fill] raises, nothing follows it. *)
Theorem push_fillings_to_manifold_order (w : W) (s : S) ty fs :
  heap w !! manifold w = Some s ->
  dicts w !! (Filling_dict, "fillings"%string) = Some (ty, UVecArray fs) ->
  (forall s' vol_text sol_text,
     dehn_fill fs s = inr s' ->
     vol_text_of (volume s') = inr vol_text ->
     Py.getitem _solution_type_text (solution_type s') = inr sol_text ->
     (push_fillings_to_manifold w).1 = inr tt /\
     events_of push_fillings_to_manifold w =
       [ E_dehn_fill (manifold w) fs;
         E_recompute_raytracing_data_and_redraw;
         E_volume (manifold w);
         E_solution_type (manifold w) ] ++
       match vol_label w with
       | Some _ => [E_vol_label_configure ("Vol: " +:+ vol_text +:+ " (" +:+ sol_text +:+ ")")]
       | None => []
       end ++
       match fillings_changed_callback w with
       | Some f => [E_call f]
       | None => []
       end) /\
  (forall e,
     dehn_fill fs s = inl e ->
     (push_fillings_to_manifold w).1 = inl e /\
     events_of push_fillings_to_manifold w = [E_dehn_fill (manifold w) fs]).
Proof.
  intros Hs Hd. split.
  - intros s' vol_text sol_text Hfill Hv Hg.
    unfold events_of. rewrite (push_fillings_to_manifold_run w s ty fs Hs Hd), Hfill.
    edestruct (finish_run (set_heap (<[manifold w := s']> (heap w))
                 (add_events [E_dehn_fill (manifold w) fs] w)) s' vol_text sol_text)
      as (w' & Hrun & Ht & _); [heap_lookup|exact Hv|exact Hg|].
    rewrite Hrun. cbn [fst snd]. split; [reflexivity|].
    rewrite Ht. unfold add_events, set_trace, set_heap. fields.
    rewrite <- app_assoc, drop_app_length. reflexivity.
  - intros e Hfill.
    unfold events_of. rewrite (push_fillings_to_manifold_run w s ty fs Hs Hd), Hfill.
    cbn [fst snd]. split; [reflexivity|].
    unfold add_events, set_trace. fields. by rewrite drop_app_length.
Qed.

(** ** Fillings, pushed and pulled *)

Lemma _fillings_from_manifold_run (w : W) (s : S) :
  heap w !! manifold w = Some s ->
  _fillings_from_manifold w =
    (inr ("vec2[]"%string,
          UVecArray (map (fun d => [ (filling d).1; (filling d).2 ]) (cusp_info s))),
     add_events [E_cusp_info (manifold w)] w).
Proof.
  intros Hs. unfold _fillings_from_manifold. msteps.
  rewrite (manifold_cusp_info_run _ _ s) by exact Hs. msteps. reflexivity.
Qed.

Lemma pull_fillings_from_manifold_dict (w : W) (s : S) :
  heap w !! manifold w = Some s ->
  dicts (pull_fillings_from_manifold w).2 !! (Filling_dict, "fillings"%string)
    = Some ("vec2[]"%string,
            UVecArray (map (fun d => [ (filling d).1; (filling d).2 ]) (cusp_info s))).
Proof.
  intros Hs. unfold pull_fillings_from_manifold.
  rewrite bind_run, (_fillings_from_manifold_run _ s) by exact Hs. cbv beta iota.
  rewrite bind_run. unfold dict_setitem at 1. rewrite modify_run. cbv beta iota.
  match goal with
  | |- context [bind ?m ?k ?w1] =>
      assert (respects display_only (bind m k)) as Hr
        by (unfold_widget; respects_all display_leaf);
      destruct (Hr w1) as (_ & _ & -> & _)
  end.
  unfold set_dicts. fields. apply lookup_insert_eq.
Qed.

(** C5: when the kernel keeps the fillings it is given, what is pushed with
    [push_fillings_to_manifold] is what [_fillings_from_manifold] and
    [pull_fillings_from_manifold] bring back, float for float. *)
Theorem fillings_round_trip (w : W) (s s' : S) ty fs :
  (forall fs0 s0 s1,
     dehn_fill fs0 s0 = inr s1 ->
     Forall (fun f => length f = 2%nat) fs0 ->
     map (fun d => [ (filling d).1; (filling d).2 ]) (cusp_info s1) = fs0) ->
  heap w !! manifold w = Some s ->
  dicts w !! (Filling_dict, "fillings"%string) = Some (ty, UVecArray fs) ->
  Forall (fun f => length f = 2%nat) fs ->
  dehn_fill fs s = inr s' ->
  let w1 := (push_fillings_to_manifold w).2 in
  (_fillings_from_manifold w1).1 = inr ("vec2[]"%string, UVecArray fs) /\
  dicts (pull_fillings_from_manifold w1).2 !! (Filling_dict, "fillings"%string)
    = Some ("vec2[]"%string, UVecArray fs).
Proof.
  intros Hfaithful Hs Hd Hlen Hfill w1.
  assert (heap w1 !! manifold w1 = Some s') as Hs1.
  { unfold w1. rewrite (push_fillings_to_manifold_run w s ty fs Hs Hd), Hfill.
    match goal with
    | |- context [finish ?w0] => destruct (finish_display_only w0) as (-> & -> & _)
    end.
    heap_lookup. }
  rewrite (_fillings_from_manifold_run w1 s' Hs1), (pull_fillings_from_manifold_dict w1 s' Hs1).
  rewrite (Hfaithful fs s s' Hfill Hlen). split; reflexivity.
Qed.

(** ** Editing a filling *)

Lemma create_fillings_frame_loop (l : list nat) (w : W) :
  for_ l (fun i =>
    modify (fun w => set_filling_controllers
      (filling_controllers w ++
       [ create_horizontal_scale Filling_dict "fillings"
           (Some (cusp_title i)) i (-15)%float 15%float
           (Some Push_fillings_to_manifold) 0 None
           (Some i) (Some 0%nat) ZoomSlider ]) w) ;;;
    modify (fun w => set_filling_controllers
      (filling_controllers w ++
       [ create_horizontal_scale Filling_dict "fillings"
           None i (-15)%float 15%float
           (Some Push_fillings_to_manifold) 3 None
           (Some i) (Some 1%nat) ZoomSlider ]) w)) w
  = (inr tt,
     set_filling_controllers
       (filling_controllers w ++
        flat_map (fun i => [filling_scale i 0; filling_scale i 1]) l) w).
Proof.
  revert w. induction l as [|i l IH]; intros w; simpl.
  - rewrite ret_run, app_nil_r. destruct w; reflexivity.
  - msteps. rewrite IH. unfold set_filling_controllers. fields.
    rewrite <- !app_assoc. reflexivity.
Qed.

Lemma create_fillings_frame_controllers (w : W) (c : UniformDictController) :
  c ∈ filling_controllers (create_fillings_frame w).2 ->
  exists s i component,
    heap w !! manifold w = Some s /\ (i < num_cusps s)%nat /\ (component < 2)%nat /\
    c = filling_scale i component.
Proof.
  unfold create_fillings_frame, manifold_num_cusps. msteps.
  destruct (heap w !! manifold w) as [s|] eqn:Hs.
  - rewrite (deref_run _ _ s) by (fields; exact Hs). msteps.
    rewrite create_fillings_frame_loop. msteps.
    unfold set_filling_controllers. fields. rewrite app_nil_l.
    intros Hc. apply list_elem_of_In, in_flat_map in Hc.
    destruct Hc as (i & Hi & Hc). apply in_seq in Hi.
    exists s, i. destruct Hc as [<-|[<-|[]]]; [exists 0%nat|exists 1%nat]; repeat split; lia.
  - rewrite deref_none by (fields; exact Hs). msteps. intros Hc. by apply elem_of_nil in Hc.
Qed.

Ltac dicts_leaf :=
  unfold same_dicts, add_events, set_trace, set_heap, set_vol_label, set_dicts,
    set_filling_controllers; fields; done.

Lemma edit_stores (w : W) (c : UniformDictController) (x : float) ty fs i component r :
  udc_uniform_dict c = Filling_dict -> udc_key c = "fillings"%string ->
  udc_index c = Some i -> udc_component_index c = Some component ->
  dicts w !! (Filling_dict, "fillings"%string) = Some (ty, UVecArray fs) ->
  fs !! i = Some r -> (component < length r)%nat ->
  (get_value c (edit c x w).2).1 = inr (clamp (udc_from_ c) (udc_to c) x).
Proof.
  intros Hdict Hkey Hi Hc Hd Hr Hlen.
  assert (forall w' : W, dicts w' = <[(Filling_dict, "fillings"%string) :=
                        (ty, UVecArray (<[i := <[component :=
                           clamp (udc_from_ c) (udc_to c) x]> r]> fs))]> (dicts w) ->
            (get_value c w').1 = inr (clamp (udc_from_ c) (udc_to c) x)) as Hget.
  { intros w' Hw'. unfold get_value. rewrite Hdict, Hkey, Hi, Hc. msteps.
    erewrite dict_getitem_run by (rewrite Hw'; apply lookup_insert_eq).
    msteps. cbn [uniform_get snd].
    rewrite list_lookup_insert_eq by (by eapply lookup_lt_Some).
    rewrite list_lookup_insert_eq by exact Hlen. reflexivity. }
  apply Hget. unfold edit, set_value. rewrite Hdict, Hkey, Hi, Hc. msteps.
  rewrite (dict_getitem_run _ _ _ _ Hd). msteps. cbn [uniform_set snd fst].
  rewrite Hr. destruct (decide (component < length r)%nat); [|done]. msteps.
  unfold dict_setitem. msteps.
  assert (respects same_dicts
            (match udc_update_function c with
             | Some f => emit (E_update_function f) ;;; call_bound_method f
             | None => ret tt
             end : M S unit)) as Hr'.
  { unfold call_bound_method. unfold_widget. respects_all dicts_leaf. }
  match goal with |- context [(_ ?w1).2] => rewrite (Hr' w1) end.
  reflexivity.
Qed.

Lemma clamp_filling_range (x : float) :
  clamp (-15) 15 (clamp (-15) 15 x) = clamp (-15) 15 x.
Proof.
  unfold clamp. destruct (x <? -15)%float eqn:Hlow; [reflexivity|].
  destruct (15 <? x)%float eqn:Hhigh; [reflexivity|]. by rewrite Hlow, Hhigh.
Qed.

(** An edit of a binding of the fillings is the write of the clamped value
    and then the filling edit path. *)
Lemma edit_run (w : W) (c : UniformDictController) (x : float) ty fs fs' :
  udc_uniform_dict c = Filling_dict -> udc_key c = "fillings"%string ->
  udc_update_function c = Some Push_fillings_to_manifold ->
  dicts w !! (Filling_dict, "fillings"%string) = Some (ty, UVecArray fs) ->
  uniform_set (UVecArray fs) (udc_index c) (udc_component_index c)
    (clamp (udc_from_ c) (udc_to c) x) = inr (UVecArray fs') ->
  edit c x w =
    push_fillings_to_manifold
      (add_events [E_update_function Push_fillings_to_manifold]
         (set_dicts (<[(Filling_dict, "fillings"%string) := (ty, UVecArray fs')]> (dicts w))
            w)).
Proof.
  intros Hdict Hkey Hupdate Hd Hset.
  unfold edit, set_value. rewrite Hdict, Hkey, Hupdate. msteps.
  rewrite (dict_getitem_run _ _ _ _ Hd). msteps. cbn [snd fst].
  rewrite Hset. msteps. unfold dict_setitem. msteps. reflexivity.
Qed.

(** C8: every filling binding has the range from -15 to 15, and an edit
    stores the requested value clamped to it: 15 for a request of 20, -15 for
    a request of -20.  A request outside the range is the request of the
    clamped value, in what it returns and in what it leaves behind; the write
    of the clamped value does not fail, and with a kernel that takes the new
    fillings the edit returns. *)
Theorem filling_edit_is_clamped (w0 w : W) (c : UniformDictController) ty fs :
  c ∈ filling_controllers (create_fillings_frame w0).2 ->
  dicts w !! (Filling_dict, "fillings"%string) = Some (ty, UVecArray fs) ->
  (exists i r, udc_index c = Some i /\ fs !! i = Some r /\ length r = 2%nat) ->
  udc_from_ c = (-15)%float /\ udc_to c = 15%float /\
  (forall x, (get_value c (edit c x w).2).1 = inr (clamp (-15) 15 x)) /\
  (get_value c (edit c 20 w).2).1 = inr 15%float /\
  (get_value c (edit c (-20) w).2).1 = inr (-15)%float /\
  (forall x, edit c x w = edit c (clamp (-15) 15 x) w) /\
  (forall x, exists fs',
     uniform_set (UVecArray fs) (udc_index c) (udc_component_index c) (clamp (-15) 15 x)
       = inr (UVecArray fs') /\
     (set_value c (clamp (-15) 15 x) w).1 = inr tt) /\
  (forall x fs' s s' vol_text sol_text,
     uniform_set (UVecArray fs) (udc_index c) (udc_component_index c) (clamp (-15) 15 x)
       = inr (UVecArray fs') ->
     heap w !! manifold w = Some s ->
     dehn_fill fs' s = inr s' ->
     vol_text_of (volume s') = inr vol_text ->
     Py.getitem _solution_type_text (solution_type s') = inr sol_text ->
     (edit c x w).1 = inr tt).
Proof.
  intros Hc Hd (i & r & Hi & Hr & Hlen).
  apply create_fillings_frame_controllers in Hc as (s & i' & component & _ & _ & Hcomp & ->).
  cbn in Hi. injection Hi as ->.
  assert (forall x, (get_value (filling_scale i component)
                       (edit (filling_scale i component) x w).2).1
                    = inr (clamp (-15) 15 x)) as Hedit.
  { intros x. eapply (edit_stores w (filling_scale i component) x); eauto; [reflexivity..|lia]. }
  split; [reflexivity|]. split; [reflexivity|]. split; [exact Hedit|].
  split; [rewrite Hedit; reflexivity|]. split; [rewrite Hedit; reflexivity|].
  split; [|split].
  - intros x. unfold edit.
    change (udc_from_ (filling_scale i component)) with (-15)%float.
    change (udc_to (filling_scale i component)) with 15%float.
    by rewrite clamp_filling_range.
  - intros x. exists (<[i := <[component := clamp (-15) 15 x]> r]> fs).
    assert (uniform_set (UVecArray fs) (Some i) (Some component) (clamp (-15) 15 x)
            = inr (UVecArray (<[i := <[component := clamp (-15) 15 x]> r]> fs))) as Hset.
    { cbn [uniform_set]. rewrite Hr.
      destruct (decide (component < length r)%nat); [reflexivity|lia]. }
    split; [exact Hset|].
    unfold set_value.
    change (udc_uniform_dict (filling_scale i component)) with Filling_dict.
    change (udc_key (filling_scale i component)) with "fillings"%string.
    change (udc_index (filling_scale i component)) with (Some i).
    change (udc_component_index (filling_scale i component)) with (Some component).
    msteps. rewrite (dict_getitem_run _ _ _ _ Hd). msteps. cbn [snd fst].
    rewrite Hset. msteps. unfold dict_setitem. msteps. reflexivity.
  - intros x fs' s0 s' vol_text sol_text Hset Hs Hfill Hv Hg.
    rewrite (edit_run w (filling_scale i component) x ty fs fs');
      [|reflexivity|reflexivity|reflexivity|exact Hd|exact Hset].
    rewrite (push_fillings_to_manifold_run _ s0 ty fs');
      [|exact Hs|unfold add_events, set_trace, set_dicts; fields; apply lookup_insert_eq].
    unfold add_events, set_trace, set_dicts. fields. rewrite Hfill.
    match goal with
    | |- (finish ?w1).1 = _ =>
        destruct (finish_run w1 s' vol_text sol_text) as (w' & Hrun & _);
          [heap_lookup|exact Hv|exact Hg|]; by rewrite Hrun
    end.
Qed.

(** ** Rounding the fillings *)

Lemma round_half_even_nearest (m : Z) (p : positive) :
  0 < m ->
  2 * Z.abs (m - Py.round_half_even m (Z.neg p) * Z.pos (2 ^ p)) <= Z.pos (2 ^ p).
Proof.
  intros Hm. unfold Py.round_half_even. cbn [Z.leb Z.compare Z.opp].
  change (- Z.neg p) with (Z.pos p). rewrite <- Pos2Z.inj_pow.
  set (d := Z.pos (2 ^ p)).
  assert (0 < d) as Hd by (unfold d; lia).
  pose proof (Z.div_mod m d ltac:(lia)) as Hdm.
  pose proof (Z.mod_pos_bound m d Hd) as Hr.
  destruct (Z.compare_spec (2 * (m `mod` d)) d) as [Hcmp|Hcmp|Hcmp];
    try destruct (Z.even (m `div` d)); nia.
Qed.

Lemma rounded_nearest (x y : float) : rounded x y -> nearest_integer x y.
Proof.
  intros (n & Hround & Hfloat). unfold Py.round in Hround.
  unfold nearest_integer, Py.float_value.
  destruct (Prim2SF x) as [sg|sg| |sg m e]; try discriminate.
  - injection Hround as <-. exists 0, 0%Q. split; [done|]. split; [|done]. by vm_compute.
  - injection Hround as <-. eexists _, _. split; [reflexivity|]. split; [|exact Hfloat].
    destruct e as [|p|p].
    + unfold Py.round_half_even. cbn [Z.leb Z.compare]. rewrite !Z.mul_1_r.
      rewrite Qabs_Qle_condition. unfold Qle, Qminus, Qplus, Qopp, inject_Z. cbn.
      destruct sg; cbn; lia.
    + unfold Py.round_half_even. cbn [Z.leb Z.compare].
      assert (Py.signed sg (Z.pos m * 2 ^ Z.pos p) = Py.signed sg (Z.pos m) * 2 ^ Z.pos p) as ->
        by (destruct sg; cbn [Py.signed]; lia).
      rewrite Qabs_Qle_condition. unfold Qle, Qminus, Qplus, Qopp, inject_Z. cbn [Qnum Qden].
      lia.
    + pose proof (round_half_even_nearest (Z.pos m) p ltac:(lia)) as Hn.
      set (k := Py.round_half_even (Z.pos m) (Z.neg p)) in *.
      rewrite Qabs_Qle_condition. unfold Qle, Qminus, Qplus, Qopp, inject_Z. cbn [Qnum Qden].
      destruct sg; cbn [Py.signed]; lia.
Qed.

Lemma filling_getitem_run (w : W) ty vs j i r x :
  dicts w !! fillings_key = Some (ty, UVecArray vs) ->
  vs !! j = Some r -> r !! i = Some x ->
  filling_getitem j i w = (inr x, w).
Proof.
  intros Hd Hr Hx. unfold filling_getitem. msteps.
  rewrite (dict_getitem_run _ _ _ _ Hd). msteps. cbn [uniform_get snd].
  by rewrite Hr, Hx.
Qed.

Lemma filling_setitem_run (w : W) ty vs j i r y :
  dicts w !! fillings_key = Some (ty, UVecArray vs) ->
  vs !! j = Some r -> (i < length r)%nat ->
  filling_setitem j i y w =
    (inr tt, set_dicts (<[fillings_key := (ty, UVecArray (<[j := <[i := y]> r]> vs))]>
                          (dicts w)) w).
Proof.
  intros Hd Hr Hi. unfold filling_setitem, dict_setitem. msteps.
  rewrite (dict_getitem_run _ _ _ _ Hd). msteps. cbn [uniform_set snd fst].
  rewrite Hr. destruct (decide (i < length r)%nat); [|done]. msteps. reflexivity.
Qed.

Lemma insert_middle {A} (pre : list A) v fs x :
  <[length pre := x]> (pre ++ v :: fs) = pre ++ x :: fs.
Proof. rewrite insert_app_r_alt by lia. by rewrite Nat.sub_diag. Qed.

Lemma round_loop_run (fs fs' pre : list (list float)) (w : W) ty :
  dicts w !! fillings_key = Some (ty, UVecArray (pre ++ fs)) ->
  Forall2 (Forall2 rounded) fs fs' ->
  Forall (fun r => length r = 2%nat) fs ->
  for_ (seq (length pre) (length fs)) (fun f =>
    for_ [0; 1]%nat (fun i =>
      x <- filling_getitem f i ;;
      n <- lift (Py.round x) ;;
      y <- lift (Py.float_of_int n) ;;
      filling_setitem f i y)) w
  = (inr tt, set_dicts (<[fillings_key := (ty, UVecArray (pre ++ fs'))]> (dicts w)) w).
Proof.
  intros Hd Hround. revert pre w Hd.
  induction Hround as [|r r' fs fs' Hr _ IH]; intros pre w Hd Hlen.
  - cbn [length seq for_]. rewrite ret_run. f_equal.
    rewrite insert_id by exact Hd. by destruct w.
  - apply Forall_cons in Hlen as [Hlr Hlen].
    destruct r as [|a [|b [|? ?]]]; try discriminate.
    apply Forall2_cons_inv_l in Hr as (a' & r1 & (na & Hna & Hfa) & Hr & ->).
    apply Forall2_cons_inv_l in Hr as (b' & r2 & (nb & Hnb & Hfb) & Hr & ->).
    apply Forall2_nil_inv_l in Hr as ->.
    cbn [length seq for_].
    assert ((pre ++ [a; b] :: fs) !! length pre = Some [a; b]) as Hj
      by (by rewrite list_lookup_middle).
    msteps. rewrite (filling_getitem_run w ty _ (length pre) 0 [a; b] a Hd Hj eq_refl).
    msteps. rewrite Hna. msteps. rewrite Hfa. msteps.
    rewrite (filling_setitem_run w ty _ (length pre) 0 [a; b] a' Hd Hj) by (cbn; lia).
    rewrite insert_middle. cbn [list_insert].
    msteps.
    assert (forall (d : gmap (dict_ref * string) uniform) v,
              (pre ++ v :: fs) !! length pre = Some v) as Hmid
      by (intros; by rewrite list_lookup_middle).
    erewrite filling_getitem_run;
      [|unfold set_dicts; fields; apply lookup_insert_eq|apply (Hmid ∅)|reflexivity].
    msteps. rewrite Hnb. msteps. rewrite Hfb. msteps.
    erewrite filling_setitem_run;
      [|unfold set_dicts; fields; apply lookup_insert_eq|apply (Hmid ∅)|cbn; lia].
    rewrite insert_middle. cbn [list_insert].
    msteps.
    specialize (IH (pre ++ [[a'; b']])). rewrite length_app, Nat.add_1_r in IH.
    rewrite IH; [|unfold set_dicts; fields; rewrite <- app_assoc; apply lookup_insert_eq
                 |exact Hlen].
    f_equal. unfold set_dicts. fields. rewrite !insert_insert_eq, <- app_assoc.
    reflexivity.
Qed.

Lemma get_value_run (w : W) ty vs c :
  dicts w !! fillings_key = Some (ty, UVecArray vs) ->
  bound_to_fillings vs c ->
  get_value c w = (inr (shown vs c), w).
Proof.
  intros Hd (Hdict & Hkey & i & j & r & Hi & Hj & Hr & Hlen).
  apply lookup_lt_is_Some_2 in Hlen as [x Hx].
  unfold get_value, shown. rewrite Hdict, Hkey, Hi, Hj. msteps.
  rewrite (dict_getitem_run _ _ _ _ Hd). msteps. cbn [uniform_get snd].
  by rewrite Hr, Hx.
Qed.

Lemma update_loop_run (cs pre : list UniformDictController) (w : W) ty vs :
  dicts w !! fillings_key = Some (ty, UVecArray vs) ->
  filling_controllers w = pre ++ cs ->
  Forall (bound_to_fillings vs) cs ->
  for_ (seq (length pre) (length cs)) UniformDictController_update w =
    (inr tt,
     set_filling_controllers (pre ++ map (fun c => set_displayed (shown vs c) c) cs)
       (add_events (map (control_show_event vs) cs) w)).
Proof.
  revert pre w. induction cs as [|c cs IH]; intros pre w Hd Hcs Hb.
  - cbn [length seq for_ map]. rewrite ret_run. f_equal.
    destruct w; cbn in *; subst. unfold add_events, set_filling_controllers, set_trace.
    fields. by rewrite !app_nil_r.
  - apply Forall_cons in Hb as [Hc Hb]. cbn [length seq for_ map].
    msteps. unfold UniformDictController_update at 1. msteps.
    rewrite Hcs, list_lookup_middle by done.
    msteps. rewrite (get_value_run _ _ _ _ Hd Hc). msteps.
    rewrite Hcs, insert_middle.
    specialize (IH (pre ++ [set_displayed (shown vs c) c])).
    rewrite length_app, Nat.add_1_r in IH.
    rewrite IH; [|unfold add_events, set_trace, set_filling_controllers; fields; exact Hd
                 |unfold add_events, set_trace, set_filling_controllers; fields;
                  by rewrite <- app_assoc
                 |exact Hb].
    f_equal. unfold add_events, set_trace, set_filling_controllers, control_show_event.
    fields. rewrite <- !app_assoc. reflexivity.
Qed.

Lemma update_filling_sliders_run (w : W) ty vs :
  dicts w !! fillings_key = Some (ty, UVecArray vs) ->
  Forall (bound_to_fillings vs) (filling_controllers w) ->
  update_filling_sliders w =
    (inr tt,
     set_filling_controllers
       (map (fun c => set_displayed (shown vs c) c) (filling_controllers w))
       (add_events (map (control_show_event vs) (filling_controllers w)) w)).
Proof.
  intros Hd Hb. unfold update_filling_sliders. msteps.
  apply (update_loop_run (filling_controllers w) [] w ty vs Hd eq_refl Hb).
Qed.

Lemma bound_to_fillings_rounded (fs fs' : list (list float)) c :
  Forall2 (Forall2 rounded) fs fs' ->
  bound_to_fillings fs c -> bound_to_fillings fs' c.
Proof.
  intros Hr (Hdict & Hkey & i & j & r & Hi & Hj & Hri & Hlen).
  destruct (Forall2_lookup_l _ _ _ _ _ Hr Hri) as (r' & Hr' & Hrr).
  repeat split; [done..|]. exists i, j, r'. repeat split; [done..|].
  by rewrite <- (Forall2_length _ _ _ Hrr).
Qed.

Lemma round_fillings_run (w : W) (s s' : S) ty fs fs' vol_text sol_text :
  heap w !! manifold w = Some s ->
  dicts w !! fillings_key = Some (ty, UVecArray fs) ->
  Forall (fun r => length r = 2%nat) fs ->
  Forall2 (Forall2 rounded) fs fs' ->
  Forall (bound_to_fillings fs) (filling_controllers w) ->
  dehn_fill fs' s = inr s' ->
  vol_text_of (volume s') = inr vol_text ->
  Py.getitem _solution_type_text (solution_type s') = inr sol_text ->
  exists w',
    round_fillings w = (inr tt, w') /\
    dicts w' !! fillings_key = Some (ty, UVecArray fs') /\
    trace w' = trace w ++
      map (control_show_event fs') (filling_controllers w) ++
      E_dehn_fill (manifold w) fs' :: finish_events vol_text sol_text w.
Proof.
  intros Hs Hd Hlen Hround Hb Hfill Hv Hg.
  unfold round_fillings. rewrite bind_run, (dict_getitem_run _ _ _ _ Hd). cbv beta iota.
  rewrite bind_run, lift_run. cbn [as_vec_array snd]. cbv beta iota.
  pose proof (round_loop_run fs fs' [] w ty Hd Hround Hlen) as Hloop.
  cbn [length app] in Hloop. rewrite bind_run, Hloop. cbv beta iota.
  set (w1 := set_dicts _ w).
  assert (dicts w1 !! fillings_key = Some (ty, UVecArray fs')) as Hd1
    by (unfold w1, set_dicts; fields; apply lookup_insert_eq).
  rewrite bind_run, (update_filling_sliders_run w1 ty fs' Hd1); cycle 1.
  { unfold w1, set_dicts. fields.
    eapply Forall_impl; [exact Hb|]. intros c. by apply bound_to_fillings_rounded. }
  cbv beta iota. set (w2 := set_filling_controllers _ _).
  rewrite (push_fillings_to_manifold_run w2 s ty fs'); [|exact Hs|exact Hd1].
  rewrite Hfill. set (w3 := set_heap _ _).
  destruct (finish_run w3 s' vol_text sol_text) as (w' & Hrun & Ht & Hdicts & _);
    [unfold w3; heap_lookup|exact Hv|exact Hg|].
  exists w'. split; [exact Hrun|]. split; [by rewrite Hdicts|].
  rewrite Ht. unfold w3, w2, w1, add_events, set_trace, set_heap, set_filling_controllers,
    set_dicts, finish_events, label_events, callback_events. fields.
  rewrite <- !app_assoc. reflexivity.
Qed.

Lemma round_fillings_never_recomputes (w : W) :
  Forall (fun e => forall l b, e <> E_init_hyperbolic_structure l b)
    (events_of round_fillings w).
Proof.
  apply events_of_extends.
  assert (respects (extends_by (fun e => forall l b, e <> E_init_hyperbolic_structure l b))
            (round_fillings (S:=S))) as Hr
    by (unfold_widget; respects_all extends_leaf).
  apply Hr.
Qed.

(** C3, as the code has it: rounding the fillings never asks the kernel for
    a forced recomputation of the hyperbolic structure.  Every component is
    replaced by the float of a nearest integer, the sliders are refreshed, and
    the rest is a filling edit: [dehn_fill] with the rounded fillings and then
    the calls that also follow [init_hyperbolic_structure] on the recompute
    path. *)
Theorem round_fillings_is_a_filling_edit (w : W) (s : S) :
  heap w !! manifold w = Some s ->
  Forall (fun e => forall l b, e <> E_init_hyperbolic_structure l b)
    (events_of round_fillings w) /\
  (forall s' ty fs fs' vol_text sol_text,
     dicts w !! (Filling_dict, "fillings"%string) = Some (ty, UVecArray fs) ->
     Forall (fun r => length r = 2%nat) fs ->
     Forall2 (Forall2 rounded) fs fs' ->
     Forall (bound_to_fillings fs) (filling_controllers w) ->
     dehn_fill fs' s = inr s' ->
     vol_text_of (volume s') = inr vol_text ->
     Py.getitem _solution_type_text (solution_type s') = inr sol_text ->
     (round_fillings w).1 = inr tt /\
     Forall2 (Forall2 nearest_integer) fs fs' /\
     dicts (round_fillings w).2 !! (Filling_dict, "fillings"%string)
       = Some (ty, UVecArray fs') /\
     events_of round_fillings w =
       map (control_show_event fs') (filling_controllers w) ++
       E_dehn_fill (manifold w) fs' :: finish_events vol_text sol_text w) /\
  (forall s' vol_text sol_text,
     init_hyperbolic_structure true s = inr s' ->
     vol_text_of (volume s') = inr vol_text ->
     Py.getitem _solution_type_text (solution_type s') = inr sol_text ->
     (recompute_hyperbolic_structure w).1 = inr tt /\
     events_of recompute_hyperbolic_structure w =
       E_init_hyperbolic_structure (manifold w) true :: finish_events vol_text sol_text w).
Proof.
  intros Hs. split; [|split].
  - apply round_fillings_never_recomputes.
  - intros s' ty fs fs' vol_text sol_text Hd Hlen Hround Hb Hfill Hv Hg.
    destruct (round_fillings_run w s s' ty fs fs' vol_text sol_text) as (w' & Hrun & Hd' & Ht);
      try assumption.
    split; [by rewrite Hrun|]. split; [|split].
    + eapply Forall2_impl; [exact Hround|]. intros r r' Hrr.
      eapply Forall2_impl; [exact Hrr|]. apply rounded_nearest.
    + by rewrite Hrun.
    + apply events_of_trace. by rewrite Hrun.
  - intros s' vol_text sol_text Hinit Hv Hg.
    rewrite (events_of_trace recompute_hyperbolic_structure w
               (E_init_hyperbolic_structure (manifold w) true
                  :: finish_events vol_text sol_text w)).
    + split; [|reflexivity].
      rewrite (recompute_hyperbolic_structure_run w s Hs), Hinit.
      edestruct (finish_run (set_heap (<[manifold w := s']> (heap w))
                   (add_events [E_init_hyperbolic_structure (manifold w) true] w))
                   s' vol_text sol_text) as (w' & -> & _); [heap_lookup|exact Hv|exact Hg|].
      reflexivity.
    + rewrite (recompute_hyperbolic_structure_run w s Hs), Hinit.
      edestruct (finish_run (set_heap (<[manifold w := s']> (heap w))
                   (add_events [E_init_hyperbolic_structure (manifold w) true] w))
                   s' vol_text sol_text) as (w' & -> & Ht & _);
        [heap_lookup|exact Hv|exact Hg|].
      cbn [snd]. rewrite Ht. unfold add_events, set_trace, set_heap. fields.
      rewrite <- app_assoc. reflexivity.
Qed.

(** ** More on the maximal cusp area *)

Lemma returns_bind {A B} (P : B -> Prop) (m : M S A) (k : A -> M S B) :
  (forall a, returns P (k a)) -> returns P (bind m k).
Proof.
  intros Hk w b w'. rewrite bind_run.
  destruct (m w) as [[e|a] w1]; [discriminate|]. apply Hk.
Qed.

Lemma returns_lift {A} (P : A -> Prop) (r : Py.result A) :
  (forall a, r = inr a -> P a) -> returns P (lift (S:=S) r).
Proof. intros Hr w a w'. rewrite lift_run. intros [= -> _]. by apply Hr. Qed.

#[local] Instance widget_agrees_off_preorder l' : PreOrder (widget_agrees_off (S:=S) l').
Proof.
  split.
  - intros w. by repeat split.
  - intros w1 w2 w3 (Ha&Ha1&Ha2&Ha3&Ha4&Ha5) (Hb&Hb1&Hb2&Hb3&Hb4&Hb5).
    split; [intros l Hl; rewrite Hb, Ha; done|]. repeat split; congruence.
Qed.

Ltac agrees_leaf :=
  unfold widget_agrees_off, add_events, set_trace, set_heap, set_vol_label, set_dicts,
    set_filling_controllers; fields;
  split; [intros ? ?; rewrite ?lookup_insert_ne by done; done|done].

(** What [_maximal_cusp_area] does to the widget: it returns, with a float
    that is 5.0 or a square root, and of the widget's own state only the
    trace is different; the manifold it was given is as it was. *)
Lemma _maximal_cusp_area_effect (w : W) (mfd : loc) (s : S) :
  heap w !! mfd = Some s ->
  exists a w1,
    _maximal_cusp_area mfd w = (inr a, w1) /\
    (a = 5.0%float \/ exists x, (x <? 0)%float = false /\ a = PrimFloat.sqrt x) /\
    heap w1 !! mfd = Some s /\
    manifold w1 = manifold w /\ dicts w1 = dicts w /\
    filling_controllers w1 = filling_controllers w /\
    vol_label w1 = vol_label w /\
    fillings_changed_callback w1 = fillings_changed_callback w.
Proof.
  intros Hs. unfold _maximal_cusp_area, manifold_hasattr_cusp_area_matrix.
  msteps. rewrite (deref_run _ _ s) by exact Hs. msteps.
  destruct (has_cusp_area_matrix s); cbn [negb].
  2:{ msteps. eexists _, _. split; [reflexivity|]. split; [by left|]. by repeat split. }
  match goal with
  | |- context [bind (manifold_copy mfd) ?k] => set (body := k)
  end.
  set (l' := fresh (dom (heap w))).
  assert (mfd <> l') as Hne by (by eapply fresh_loc_ne).
  assert (respects (widget_agrees_off l') (body l')) as Hframe.
  { unfold body. unfold_widget. respects_all agrees_leaf. }
  assert (returns (fun a => exists x, (x <? 0)%float = false /\ a = PrimFloat.sqrt x)
            (body l')) as Hret.
  { unfold body. repeat (apply returns_bind; intros ?). apply returns_lift.
    intros r. unfold Py.sqrt. destruct (_ <? 0)%float eqn:Hx; [discriminate|].
    intros [= <-]. eauto. }
  rewrite try_except_run, bind_run, (manifold_copy_run _ _ s) by exact Hs.
  fold l'. cbv zeta.
  destruct (copy s) as [e|s1]; cbv beta iota.
  - msteps. eexists _, _. split; [reflexivity|]. split; [by left|].
    unfold add_events, set_trace. fields. by repeat split.
  - specialize (Hframe (set_heap (<[l' := s1]> (heap w)) (add_events [E_copy mfd l'] w))).
    specialize (Hret (set_heap (<[l' := s1]> (heap w)) (add_events [E_copy mfd l'] w))).
    destruct (body l' _) as [[e|a] w2]; cbn [snd] in *; msteps.
    all: destruct Hframe as (Hheap & Hm & Hd & Hc & Hl & Hcb).
    all: eexists _, _; split; [reflexivity|].
    all: split; [first [by left | right; by eapply Hret]|].
    all: unfold add_events, set_trace, set_heap in *;
         cbn [heap manifold dicts filling_controllers vol_label
              fillings_changed_callback trace] in *.
    all: split; [rewrite (Hheap mfd Hne); fields; by rewrite lookup_insert_ne|].
    all: by repeat split.
Qed.

(** X1: for a manifold that exists, [_maximal_cusp_area] never raises, for
    whatever the kernel does: it returns 5.0 or the square root of a float that
    is not below zero. *)
Theorem _maximal_cusp_area_never_raises (w : W) (mfd : loc) (s : S) :
  heap w !! mfd = Some s ->
  exists a,
    (_maximal_cusp_area mfd w).1 = inr a /\
    (a = 5.0%float \/ exists x, (x <? 0)%float = false /\ a = PrimFloat.sqrt x).
Proof.
  intros Hs. destruct (_maximal_cusp_area_effect w mfd s Hs) as (a & w1 & Hrun & Ha & _).
  exists a. by rewrite Hrun.
Qed.

(** X2: on a manifold without cusps the kernel's matrix has no diagonal,
    [max] of the empty list raises [ValueError] inside the [try], and the
    maximal cusp area is 5.0; the last thing the call does is to print that
    exception. *)
Theorem _maximal_cusp_area_no_cusps (w : W) (mfd : loc) (s s1 s2 s3 : S) m :
  heap w !! mfd = Some s ->
  has_cusp_area_matrix s = true ->
  copy s = inr s1 ->
  dehn_fill (replicate (num_cusps s1) [0; 0]%float) s1 = inr s2 ->
  init_hyperbolic_structure true s2 = inr s3 ->
  cusp_area_matrix "trigDependent" s3 = inr m ->
  num_cusps s3 = 0%nat ->
  (_maximal_cusp_area mfd w).1 = inr 5.0%float /\
  last (trace (_maximal_cusp_area mfd w).2)
    = Some (E_print "Exception while trying to compute maximal cusp area:" Py.ValueError).
Proof.
  intros Hs Hhas Hcopy Hfill Hinit Hmat Hn.
  destruct (_maximal_cusp_area_run w mfd s s1 s2 s3 Hs Hhas Hcopy Hfill Hinit)
    as (w1 & _ & _ & Hrun).
  rewrite Hrun, Hmat, Hn. clear Hrun. cbn [seq list_comprehension].
  msteps. cbn [Py.max]. msteps. split; [reflexivity|].
  apply last_snoc.
Qed.

(** ** More on the label *)

Ltac label_leaf :=
  unfold label_only, add_events, set_trace, set_heap, set_vol_label, set_dicts,
    set_filling_controllers; fields; done.

#[local] Instance label_only_preorder : PreOrder (label_only (S:=S)).
Proof.
  split.
  - intros w. by repeat split.
  - intros w1 w2 w3 (?&?&?&?&?) (?&?&?&?&?). repeat split; congruence.
Qed.

#[local] Instance bindings_kept_preorder : PreOrder (bindings_kept (S:=S)).
Proof.
  split.
  - intros w. by split.
  - intros w1 w2 w3 (?&?) (?&?). split; congruence.
Qed.

(** X3: a solution type outside the table.  The codes -7 to -1 count from the
    end of the table and the label shows that entry; every other code outside
    0..6 raises [IndexError], and the label keeps the text it had. *)
Theorem update_volume_label_outside_table (w : W) (s : S) (vol_text old : string) :
  heap w !! manifold w = Some s ->
  vol_label w = Some old ->
  vol_text_of (volume s) = inr vol_text ->
  (-7 <= solution_type s < 0 ->
     exists sol_text,
       _solution_type_text !! Z.to_nat (solution_type s + 7) = Some sol_text /\
       (update_volume_label w).1 = inr tt /\
       vol_label (update_volume_label w).2 = Some (vol_label_text vol_text sol_text)) /\
  (solution_type s < -7 \/ 6 < solution_type s ->
     (update_volume_label w).1 = inl Py.IndexError /\
     vol_label (update_volume_label w).2 = Some old /\
     events_of update_volume_label w
       = [E_volume (manifold w); E_solution_type (manifold w)]).
Proof.
  intros Hs Hl Hv. split.
  - intros Hc.
    assert (exists sol_text,
              Py.getitem _solution_type_text (solution_type s) = inr sol_text /\
              _solution_type_text !! Z.to_nat (solution_type s + 7) = Some sol_text)
      as (sol_text & Hg & Ht).
    { assert (solution_type s = -7 \/ solution_type s = -6 \/ solution_type s = -5 \/
              solution_type s = -4 \/ solution_type s = -3 \/ solution_type s = -2 \/
              solution_type s = -1) as Hcases by lia.
      destruct Hcases as [->|[->|[->|[->|[->|[->| ->]]]]]]; eexists; split; reflexivity. }
    exists sol_text. split; [exact Ht|].
    rewrite (update_volume_label_run w s vol_text sol_text Hs Hv Hg), Hl.
    split; reflexivity.
  - intros Hc.
    assert (Py.getitem _solution_type_text (solution_type s) = inl Py.IndexError) as Hg.
    { unfold Py.getitem. cbn [length _solution_type_text].
      destruct (solution_type s <? 0) eqn:Hneg.
      - apply Z.ltb_lt in Hneg.
        replace (Z.of_nat 7 + solution_type s <? 0) with true
          by (symmetry; apply Z.ltb_lt; lia). reflexivity.
      - apply Z.ltb_ge in Hneg.
        replace (solution_type s <? 0) with false by (symmetry; apply Z.ltb_ge; lia).
        replace (Z.of_nat 7 <=? solution_type s) with true
          by (symmetry; apply Z.leb_le; lia). reflexivity. }
    unfold events_of, update_volume_label.
    msteps. rewrite (manifold_volume_run _ _ s) by exact Hs.
    destruct (volume s) as [e|v]; [destruct e|]; simplify_eq/=; msteps.
    all: rewrite (manifold_solution_type_run _ _ s) by exact Hs; msteps.
    all: rewrite Hg; msteps.
    all: split; [reflexivity|]; split; [exact Hl|].
    all: unfold add_events, set_trace; fields.
    all: by rewrite <- ?app_assoc, drop_app_length.
Qed.

(** X4: only [ValueError] is caught around [volume()].  Any other exception
    goes through [update_volume_label]: the solution type is not asked for and
    the label is not touched. *)
Theorem update_volume_label_volume_raises (w : W) (s : S) (e : Py.exception) :
  heap w !! manifold w = Some s ->
  volume s = inl e ->
  e <> Py.ValueError ->
  update_volume_label w = (inl e, add_events [E_volume (manifold w)] w).
Proof.
  intros Hs Hv He. unfold update_volume_label.
  msteps. rewrite (manifold_volume_run _ _ s) by exact Hs. rewrite Hv.
  msteps. unfold is_exception. rewrite bool_decide_eq_false_2 by exact He. reflexivity.
Qed.

(** X5: [update_volume_label] changes the label and nothing else of the
    widget: the manifold objects, the dictionaries, the sliders and the
    registered callback are as they were, whether it returns or raises. *)
Theorem update_volume_label_label_only (w : W) :
  label_only w (update_volume_label w).2.
Proof.
  assert (respects label_only (update_volume_label (S:=S))) as Hr
    by (unfold_widget; respects_all label_leaf).
  apply Hr.
Qed.

(** ** More on the two paths *)

Ltac bindings_leaf :=
  unfold bindings_kept, add_events, set_trace, set_heap, set_vol_label, set_dicts,
    set_filling_controllers; fields; done.

(** X6: neither a filling edit nor a recomputation of the hyperbolic
    structure writes to the dictionaries or to the sliders: what the sliders
    show after [recompute_hyperbolic_structure] is what they showed before,
    whatever the kernel made of the fillings. *)
Theorem paths_keep_bindings (w : W) :
  bindings_kept w (push_fillings_to_manifold w).2 /\
  bindings_kept w (recompute_hyperbolic_structure w).2.
Proof.
  split.
  - assert (respects bindings_kept (push_fillings_to_manifold (S:=S))) as Hr
      by (unfold_widget; respects_all bindings_leaf).
    apply Hr.
  - assert (respects bindings_kept (recompute_hyperbolic_structure (S:=S))) as Hr
      by (unfold_widget; respects_all bindings_leaf).
    apply Hr.
Qed.

(** X7: when [init_hyperbolic_structure] raises, the recompute path stops
    there: the exception goes to the caller and the call of the kernel is the
    only call made, so that there is no redraw, no label update and no
    notification; the dictionaries, the sliders and the callback are as they
    were and the label keeps the text it had.  What the failed call has made
    of the manifold object is the kernel's and is not stated. *)
Theorem recompute_hyperbolic_structure_raises (w : W) (s : S) (e : Py.exception) :
  heap w !! manifold w = Some s ->
  init_hyperbolic_structure true s = inl e ->
  (recompute_hyperbolic_structure w).1 = inl e /\
  events_of recompute_hyperbolic_structure w
    = [E_init_hyperbolic_structure (manifold w) true] /\
  vol_label (recompute_hyperbolic_structure w).2 = vol_label w /\
  dicts (recompute_hyperbolic_structure w).2 = dicts w /\
  filling_controllers (recompute_hyperbolic_structure w).2 = filling_controllers w /\
  fillings_changed_callback (recompute_hyperbolic_structure w).2
    = fillings_changed_callback w.
Proof.
  intros Hs Hinit. split; [|split].
  - by rewrite (recompute_hyperbolic_structure_run w s Hs), Hinit.
  - apply events_of_trace. by rewrite (recompute_hyperbolic_structure_run w s Hs), Hinit.
  - by rewrite (recompute_hyperbolic_structure_run w s Hs), Hinit.
Qed.

(** ** The sliders of the fillings *)

Lemma lookup_pairs {A} (f : nat -> nat -> A) (a n i c : nat) :
  (i < n)%nat -> (c < 2)%nat ->
  flat_map (fun i => [f i 0%nat; f i 1%nat]) (seq a n) !! (2 * i + c)%nat
    = Some (f (a + i)%nat c).
Proof.
  revert a i. induction n as [|n IH]; intros a i Hi Hc; [lia|].
  cbn [seq flat_map]. destruct i as [|i].
  - rewrite Nat.add_0_r. destruct c as [|[|c]]; [reflexivity..|lia].
  - replace (2 * Datatypes.S i + c)%nat with (Datatypes.S (Datatypes.S (2 * i + c))) by lia.
    cbn [app lookup list_lookup]. rewrite IH by lia. f_equal. f_equal. lia.
Qed.

Lemma length_pairs {A} (f : nat -> nat -> A) (a n : nat) :
  length (flat_map (fun i => [f i 0%nat; f i 1%nat]) (seq a n)) = (2 * n)%nat.
Proof.
  revert a. induction n as [|n IH]; intros a; [reflexivity|].
  cbn [seq flat_map app length]. rewrite IH. lia.
Qed.

Lemma create_fillings_frame_run (w : W) (s : S) :
  heap w !! manifold w = Some s ->
  create_fillings_frame w =
    let cs := flat_map (fun i => [filling_scale i 0; filling_scale i 1])
                (seq 0 (num_cusps s)) in
    (inr cs, set_filling_controllers cs (add_events [E_num_cusps (manifold w)] w)).
Proof.
  intros Hs. unfold create_fillings_frame. msteps.
  rewrite (manifold_num_cusps_run _ _ s) by (fields; exact Hs). msteps.
  rewrite create_fillings_frame_loop. msteps. reflexivity.
Qed.

(** X8: [create_fillings_frame] leaves the widget with two sliders for each
    cusp of the manifold and no others, whatever sliders it had: the sliders
    [2i] and [2i+1] are bound to the two components of the filling of cusp
    [i], both with the range from -15 to 15 and with
    [push_fillings_to_manifold] as their update function. *)
Theorem create_fillings_frame_sliders (w : W) (s : S) :
  heap w !! manifold w = Some s ->
  let cs := filling_controllers (create_fillings_frame w).2 in
  (create_fillings_frame w).1 = inr cs /\
  length cs = (2 * num_cusps s)%nat /\
  forall i component c,
    (i < num_cusps s)%nat -> (component < 2)%nat ->
    cs !! (2 * i + component)%nat = Some c ->
    udc_uniform_dict c = Filling_dict /\ udc_key c = "fillings"%string /\
    udc_index c = Some i /\ udc_component_index c = Some component /\
    udc_from_ c = (-15)%float /\ udc_to c = 15%float /\
    udc_update_function c = Some Push_fillings_to_manifold.
Proof.
  intros Hs. rewrite (create_fillings_frame_run w s Hs). cbv zeta.
  unfold set_filling_controllers. fields.
  split; [reflexivity|]. split; [apply length_pairs|].
  intros i component c Hi Hc.
  rewrite (lookup_pairs filling_scale 0 (num_cusps s) i component Hi Hc).
  intros [= <-]. by repeat split.
Qed.



(** ** Pulling, once more *)

#[local] Instance label_stays_preorder : PreOrder (label_stays (S:=S)).
Proof.
  split.
  - intros w Hl. exact Hl.
  - intros w1 w2 w3 H12 H23 Hl. by apply H23, H12.
Qed.



(** ** The widget after [__init__] *)



(** ** Rounding, its failures and what it keeps *)

Lemma round_rows_run (fs fs' pre post : list (list float)) (w : W) ty :
  dicts w !! fillings_key = Some (ty, UVecArray (pre ++ fs ++ post)) ->
  Forall2 (Forall2 rounded) fs fs' ->
  Forall (fun r => length r = 2%nat) fs ->
  for_ (seq (length pre) (length fs)) (fun f =>
    for_ [0; 1]%nat (fun i =>
      x <- filling_getitem f i ;;
      n <- lift (Py.round x) ;;
      y <- lift (Py.float_of_int n) ;;
      filling_setitem f i y)) w
  = (inr tt,
     set_dicts (<[fillings_key := (ty, UVecArray (pre ++ fs' ++ post))]> (dicts w)) w).
Proof.
  intros Hd Hround. revert pre w Hd.
  induction Hround as [|r r' fs fs' Hr _ IH]; intros pre w Hd Hlen.
  - cbn [length seq for_]. rewrite ret_run. f_equal.
    rewrite insert_id by exact Hd. by destruct w.
  - apply Forall_cons in Hlen as [Hlr Hlen].
    destruct r as [|a [|b [|? ?]]]; try discriminate.
    apply Forall2_cons_inv_l in Hr as (a' & r1 & (na & Hna & Hfa) & Hr & ->).
    apply Forall2_cons_inv_l in Hr as (b' & r2 & (nb & Hnb & Hfb) & Hr & ->).
    apply Forall2_nil_inv_l in Hr as ->.
    cbn [length seq for_]. cbn [app] in Hd.
    assert (forall v, (pre ++ v :: fs ++ post) !! length pre = Some v) as Hmid
      by (intros; by rewrite list_lookup_middle).
    msteps.
    rewrite (filling_getitem_run w ty _ (length pre) 0 [a; b] a Hd (Hmid _) eq_refl).
    msteps. rewrite Hna. msteps. rewrite Hfa. msteps.
    rewrite (filling_setitem_run w ty _ (length pre) 0 [a; b] a' Hd (Hmid _)) by (cbn; lia).
    rewrite insert_middle. cbn [list_insert].
    msteps.
    erewrite filling_getitem_run;
      [|unfold set_dicts; fields; apply lookup_insert_eq|apply Hmid|reflexivity].
    msteps. rewrite Hnb. msteps. rewrite Hfb. msteps.
    erewrite filling_setitem_run;
      [|unfold set_dicts; fields; apply lookup_insert_eq|apply Hmid|cbn; lia].
    rewrite insert_middle. cbn [list_insert].
    msteps.
    specialize (IH (pre ++ [[a'; b']])). rewrite length_app, Nat.add_1_r in IH.
    rewrite IH; [|unfold set_dicts; fields; rewrite <- app_assoc; apply lookup_insert_eq
                 |exact Hlen].
    f_equal. unfold set_dicts. fields. rewrite !insert_insert_eq, <- app_assoc.
    reflexivity.
Qed.

Lemma for_app {A} (l1 l2 : list A) (body : A -> M S unit) (w : W) :
  for_ (l1 ++ l2) body w = (for_ l1 body ;;; for_ l2 body) w.
Proof.
  revert w. induction l1 as [|x l1 IH]; intros w; cbn [app for_].
  - by rewrite bind_run, ret_run.
  - rewrite !bind_run. destruct (body x w) as [[e|[]] w1]; [reflexivity|].
    rewrite IH. by rewrite bind_run.
Qed.

(** X11: a component that [round] refuses, [nan] or an infinity, stops
    [round_fillings] where it stands.  The exception of [round] goes to the
    caller; the components before it stay rounded in the dictionary, the others
    are as they were; no slider is refreshed and the kernel is not called. *)
Theorem round_fillings_stops_at_bad_component (w : W) ty
    (fs fs' post : list (list float)) (a b : float) (e : Py.exception) :
  dicts w !! (Filling_dict, "fillings"%string)
    = Some (ty, UVecArray (fs ++ [a; b] :: post)) ->
  Forall (fun r => length r = 2%nat) fs ->
  Forall2 (Forall2 rounded) fs fs' ->
  (Py.round a = inl e ->
     round_fillings w =
       (inl e, set_dicts (<[(Filling_dict, "fillings"%string) :=
                              (ty, UVecArray (fs' ++ [a; b] :: post))]> (dicts w)) w)) /\
  (forall a', rounded a a' -> Py.round b = inl e ->
     round_fillings w =
       (inl e, set_dicts (<[(Filling_dict, "fillings"%string) :=
                              (ty, UVecArray (fs' ++ [a'; b] :: post))]> (dicts w)) w)).
Proof.
  intros Hd Hlen Hround.
  assert (forall k : M S unit,
            round_fillings w =
              (for_ (seq (length fs) (Datatypes.S (length post))) (fun f =>
                 for_ [0; 1]%nat (fun i =>
                   x <- filling_getitem f i ;;
                   n <- lift (Py.round x) ;;
                   y <- lift (Py.float_of_int n) ;;
                   filling_setitem f i y)) ;;;
               update_filling_sliders ;;; push_fillings_to_manifold)
                (set_dicts (<[fillings_key := (ty, UVecArray (fs' ++ [a; b] :: post))]>
                              (dicts w)) w)) as Hrun.
  { intros _. unfold round_fillings.
    rewrite bind_run, (dict_getitem_run _ _ _ _ Hd). cbv beta iota.
    rewrite bind_run, lift_run. cbn [as_vec_array snd]. cbv beta iota.
    rewrite length_app. cbn [length]. rewrite seq_app, Nat.add_0_l.
    rewrite bind_run, for_app, bind_run.
    pose proof (round_rows_run fs fs' [] ([a; b] :: post) w ty Hd Hround Hlen) as Hloop.
    cbn [length app] in Hloop. rewrite Hloop. cbv beta iota.
    by rewrite bind_run. }
  specialize (Hrun (ret tt)).
  set (w1 := set_dicts _ w) in *.
  assert (dicts w1 !! fillings_key = Some (ty, UVecArray (fs' ++ [a; b] :: post))) as Hd1
    by (unfold w1, set_dicts; fields; apply lookup_insert_eq).
  assert (length fs' = length fs) as Hlen' by (symmetry; by eapply Forall2_length).
  assert (forall v, (fs' ++ v :: post) !! length fs = Some v) as Hmid
    by (intros; rewrite <- Hlen'; by rewrite list_lookup_middle).
  rewrite Hrun. cbn [seq for_]. split.
  - intros Ha. msteps.
    rewrite (filling_getitem_run w1 ty _ (length fs) 0 [a; b] a Hd1 (Hmid _) eq_refl).
    msteps. rewrite Ha. msteps. reflexivity.
  - intros a' (na & Hna & Hfa) Hb. msteps.
    rewrite (filling_getitem_run w1 ty _ (length fs) 0 [a; b] a Hd1 (Hmid _) eq_refl).
    msteps. rewrite Hna. msteps. rewrite Hfa. msteps.
    rewrite (filling_setitem_run w1 ty _ (length fs) 0 [a; b] a' Hd1 (Hmid _)) by (cbn; lia).
    rewrite <- Hlen', insert_middle. cbn [list_insert]. msteps.
    erewrite filling_getitem_run;
      [|unfold set_dicts; fields; apply lookup_insert_eq
       |rewrite Hlen'; apply Hmid|reflexivity].
    msteps. rewrite Hb. msteps.
    f_equal. unfold w1, set_dicts. fields. by rewrite insert_insert_eq.
Qed.






End Facts.

(** * The other modules *)

(** ** The performance test *)

Lemma truediv_defined (x y : float) (n : Z) (d : float) :
  PerfTest.truediv x n = inr d ->
  exists fn, Py.float_of_int n = inr fn /\ (fn =? 0)%float = false /\
             PerfTest.truediv y n = inr (y / fn)%float.
Proof.
  unfold PerfTest.truediv. destruct (Py.float_of_int n) as [e|fn]; [discriminate|].
  destruct (fn =? 0)%float eqn:Hz; [discriminate|]. intros _. by exists fn.
Qed.

(** While the iteration counter cannot reach [num_iterations], every timer
    draws a frame and leaves one call pending. *)
Lemma mainloop_app (pre rest : list PerfTest.input) (self : PerfTest.PerfTest)
    (tr : list PerfTest.event) :
  (PerfTest.num_iterations self <= PerfTest.current_iteration self \/
   PerfTest.current_iteration self + Z.of_nat (PerfTest.timers pre)
     < PerfTest.num_iterations self) ->
  PerfTest.mainloop (pre ++ rest) self {| PerfTest.pending := 1; PerfTest.trace := tr |}
    = PerfTest.mainloop rest
        {| PerfTest.m := PerfTest.m self;
           PerfTest.num_iterations := PerfTest.num_iterations self;
           PerfTest.current_iteration :=
             PerfTest.current_iteration self + Z.of_nat (PerfTest.timers pre);
           PerfTest.total_time := PerfTest.reported_from (PerfTest.total_time self) pre |}
        {| PerfTest.pending := 1;
           PerfTest.trace := tr ++ PerfTest.frames (PerfTest.timers pre) (PerfTest.m self) |}.
Proof.
  revert self tr. induction pre as [|[|x] pre IH]; intros [d n k total] tr Hk;
    cbn [PerfTest.m PerfTest.num_iterations PerfTest.current_iteration PerfTest.total_time]
      in *.
  - cbn [app PerfTest.timers PerfTest.reported_from fold_left PerfTest.frames].
    by rewrite Z.add_0_r, app_nil_r.
  - cbn [PerfTest.timers] in Hk.
    change ((PerfTest.Timer :: pre) ++ rest) with (PerfTest.Timer :: (pre ++ rest)).
    cbn [PerfTest.mainloop PerfTest.pending PerfTest.trace]. unfold PerfTest.redraw.
    cbn [PerfTest.m PerfTest.num_iterations PerfTest.current_iteration PerfTest.total_time].
    destruct (decide (k + 1 = n)) as [Heq|Hne]; [lia|].
    unfold PerfTest.after, PerfTest.emit. cbn [PerfTest.pending PerfTest.trace].
    rewrite IH by (cbn; lia).
    cbn [PerfTest.m PerfTest.num_iterations PerfTest.current_iteration PerfTest.total_time
         PerfTest.timers PerfTest.reported_from fold_left PerfTest.frames
         PerfTest.frame_events].
    rewrite <- !app_assoc. cbn [app].
    replace (k + 1 + Z.of_nat (PerfTest.timers pre))
      with (k + Z.of_nat (Datatypes.S (PerfTest.timers pre))) by lia.
    reflexivity.
  - cbn [PerfTest.timers] in Hk.
    change ((PerfTest.Report x :: pre) ++ rest) with (PerfTest.Report x :: (pre ++ rest)).
    cbn [PerfTest.mainloop]. unfold PerfTest.report_time.
    cbn [PerfTest.m PerfTest.num_iterations PerfTest.current_iteration PerfTest.total_time].
    rewrite IH by (cbn; lia). reflexivity.
Qed.

(** X13: a test of [num_iterations] iterations, one or more, ends at the
    timer number [num_iterations] with [sys.exit(0)], whatever comes after.
    By then it has drawn [num_iterations - 1] frames; the total it prints is
    the sum of the times reported and the average is that total divided by
    [num_iterations]. *)
Theorem PerfTest_exits_at_last_iteration (num_iterations : Z) (pre post : list PerfTest.input)
    (distance : float) :
  0 < num_iterations ->
  PerfTest.truediv 0.1 num_iterations = inr distance ->
  Z.of_nat (PerfTest.timers pre) = num_iterations - 1 ->
  exists average,
    PerfTest.truediv (1000 * PerfTest.reported pre) num_iterations = inr average /\
    PerfTest.__init__ num_iterations (pre ++ PerfTest.Timer :: post)
      = (Some (PerfTest.SystemExit 0),
         Some {| PerfTest.m := distance; PerfTest.num_iterations := num_iterations;
                 PerfTest.current_iteration := num_iterations;
                 PerfTest.total_time := PerfTest.reported pre |},
         {| PerfTest.pending := 0;
            PerfTest.trace :=
              [PerfTest.E_after 250; PerfTest.E_focus_set; PerfTest.E_mainloop] ++
              PerfTest.frames (PerfTest.timers pre) distance ++
              [PerfTest.E_print
                 ("Total time: " +:+ PerfTest.format_1f (1000 * PerfTest.reported pre)
                  +:+ "ms");
               PerfTest.E_print ("Time: " +:+ PerfTest.format_1f average +:+ "ms")] |}).
Proof.
  intros Hn Hd Hpre.
  destruct (truediv_defined _ (1000 * PerfTest.reported pre)%float _ _ Hd)
    as (fn & Hfn & Hz & Haverage).
  exists (1000 * PerfTest.reported pre / fn)%float. split; [exact Haverage|].
  unfold PerfTest.__init__. rewrite Hd.
  unfold PerfTest.after, PerfTest.emit. cbn [PerfTest.pending PerfTest.trace app].
  rewrite mainloop_app
    by (cbn [PerfTest.num_iterations PerfTest.current_iteration]; lia).
  cbn [PerfTest.m PerfTest.num_iterations PerfTest.current_iteration PerfTest.total_time].
  cbn [PerfTest.mainloop PerfTest.pending PerfTest.trace]. unfold PerfTest.redraw.
  cbn [PerfTest.m PerfTest.num_iterations PerfTest.current_iteration PerfTest.total_time].
  destruct (decide (0 + Z.of_nat (PerfTest.timers pre) + 1 = num_iterations)) as [_|Hne];
    [|lia].
  fold (PerfTest.reported pre). rewrite Haverage.
  unfold PerfTest.emit. cbn [PerfTest.pending PerfTest.trace].
  replace (0 + Z.of_nat (PerfTest.timers pre) + 1) with num_iterations by lia.
  by rewrite <- !app_assoc.
Qed.

(** X14: a test that cannot end.  With [num_iterations = 0] the constructor
    raises [ZeroDivisionError] before anything is scheduled.  With a negative
    [num_iterations], or while fewer than [num_iterations] timers have run
    out, [redraw] does not exit: every timer draws a frame and schedules the
    next call. *)
Theorem PerfTest_keeps_drawing (num_iterations : Z) (inputs : list PerfTest.input) :
  (num_iterations = 0 ->
     PerfTest.__init__ num_iterations inputs
       = (Some PerfTest.ZeroDivisionError, None,
          {| PerfTest.pending := 0; PerfTest.trace := [] |})) /\
  (forall distance,
     PerfTest.truediv 0.1 num_iterations = inr distance ->
     num_iterations < 0 \/ Z.of_nat (PerfTest.timers inputs) < num_iterations ->
     PerfTest.__init__ num_iterations inputs
       = (None,
          Some {| PerfTest.m := distance; PerfTest.num_iterations := num_iterations;
                  PerfTest.current_iteration := Z.of_nat (PerfTest.timers inputs);
                  PerfTest.total_time := PerfTest.reported inputs |},
          {| PerfTest.pending := 1;
             PerfTest.trace :=
               [PerfTest.E_after 250; PerfTest.E_focus_set; PerfTest.E_mainloop] ++
               PerfTest.frames (PerfTest.timers inputs) distance |})).
Proof.
  split.
  - intros ->. reflexivity.
  - intros distance Hd Hn. unfold PerfTest.__init__. rewrite Hd.
    unfold PerfTest.after, PerfTest.emit. cbn [PerfTest.pending PerfTest.trace app].
    rewrite <- (app_nil_r inputs) at 1.
    rewrite mainloop_app
      by (cbn [PerfTest.num_iterations PerfTest.current_iteration]; lia).
    reflexivity.
Qed.
(** ** The GUI checks *)

(** One call from a state of [status]: it returns, it leaves a state of
    [status], and the answers that were there are kept. *)
Lemma call_on_status (c : sage_helper.call) (env : sage_helper.machine)
    (g : sage_helper.globals) :
  sage_helper.status g ->
  exists b,
    (sage_helper.call_on c env g).1 = inr b /\
    sage_helper.status (sage_helper.call_on c env g).2 /\
    sage_helper._gui_status (sage_helper.call_on c env g).2 !! sage_helper.key c = Some b /\
    forall k v, sage_helper._gui_status g !! k = Some v ->
                sage_helper._gui_status (sage_helper.call_on c env g).2 !! k = Some v.
Proof.
  intros Hg. destruct env as [tk gl].
  assert (forall (m : gmap string bool) k v k' v',
            m !! k' = None -> m !! k = Some v -> <[k' := v']> m !! k = Some v) as Hkeep.
  { intros m k v k' v' Hnone Hsome. rewrite lookup_insert_ne; [exact Hsome|].
    intros ->. rewrite Hnone in Hsome. discriminate. }
  destruct Hg as [|b|b|]; destruct c; cbn [sage_helper.call_on sage_helper.key].
  - exists tk. repeat split; [constructor|intros k v Hk; by apply Hkeep].
  - destruct tk.
    + exists gl. repeat split; [constructor|].
      intros k v Hk. cbn [sage_helper.loaded sage_helper._gui_status] in Hk.
      rewrite lookup_empty in Hk. discriminate.
    + exists false. repeat split; [constructor|].
      intros k v Hk. cbn [sage_helper.loaded sage_helper._gui_status] in Hk.
      rewrite lookup_empty in Hk. discriminate.
  - exists b. repeat split; [constructor|tauto].
  - destruct b.
    + exists gl. repeat split; [constructor|intros k v Hk; by apply Hkeep].
    + exists false. repeat split; [constructor|intros k v Hk; by apply Hkeep].
  - exists true. repeat split; [constructor|tauto].
  - exists b. repeat split; [constructor|tauto].
  - exists false. repeat split; [constructor|tauto].
  - exists false. repeat split; [constructor|tauto].
Qed.

Lemma calls_status (cs : list (sage_helper.call * sage_helper.machine))
    (g : sage_helper.globals) :
  sage_helper.status g ->
  sage_helper.status (sage_helper.calls cs g).2 /\
  (forall k v, sage_helper._gui_status g !! k = Some v ->
               sage_helper._gui_status (sage_helper.calls cs g).2 !! k = Some v) /\
  Forall2 (fun c r =>
             exists b, r = inr b /\
               sage_helper._gui_status (sage_helper.calls cs g).2 !! sage_helper.key c.1
                 = Some b)
    cs (sage_helper.calls cs g).1.
Proof.
  revert g. induction cs as [|[c env] cs IH]; intros g Hg.
  - cbn. split; [exact Hg|]. split; [tauto|constructor].
  - cbn [sage_helper.calls].
    destruct (call_on_status c env g Hg) as (b & Hr & Hs & Hb & Hkeep).
    destruct (sage_helper.call_on c env g) as [r g1]. cbn [fst snd] in *. subst r.
    destruct (IH g1 Hs) as (Hs' & Hkeep' & Hall).
    destruct (sage_helper.calls cs g1) as [rs g2]. cbn [fst snd] in *.
    split; [exact Hs'|]. split; [intros k v Hk; by apply Hkeep', Hkeep|].
    constructor; [|exact Hall]. exists b. split; [reflexivity|by apply Hkeep'].
Qed.

(** X15: the answers of the GUI checks are cached.  In any sequence of calls
    of [tk_works] and [cyopen_gl_works] after the module is loaded, on
    machines that may differ from call to call, no call raises and every call
    of a check returns the same answer: what the dictionary holds for it in the
    end. *)
Theorem gui_checks_answer_once (cs : list (sage_helper.call * sage_helper.machine)) :
  Forall2 (fun c r =>
             exists b, r = inr b /\
               sage_helper._gui_status (sage_helper.calls cs sage_helper.loaded).2
                 !! sage_helper.key c.1 = Some b)
    cs (sage_helper.calls cs sage_helper.loaded).1.
Proof. apply calls_status. constructor. Qed.

(** X16: what the checks try.  In any sequence of calls after the module is
    loaded, a root window is made at most once and the import of
    [snappy.CyOpenGL] is tried at most once, and only after a root window
    could be made; [cyopen_gl_works] answers [True] only where [tk_works]
    does. *)
Theorem gui_checks_try_once (cs : list (sage_helper.call * sage_helper.machine)) :
  let g := (sage_helper.calls cs sage_helper.loaded).2 in
  (exists tk, sage_helper.trace g = [] \/ sage_helper.trace g = [sage_helper.E_Tk tk] \/
     exists gl, sage_helper.trace g
                  = [sage_helper.E_Tk true; sage_helper.E_import_CyOpenGL gl]) /\
  (sage_helper._gui_status g !! "cyopengl"%string = Some true ->
   sage_helper._gui_status g !! "tk"%string = Some true).
Proof.
  intros g. pose proof (calls_status cs sage_helper.loaded sage_helper.status_loaded)
    as [Hs _].
  fold g in Hs. destruct Hs as [|b|b|]; cbn [sage_helper.trace sage_helper._gui_status].
  - split; [exists true; by left|]. intros Hk. vm_compute in Hk. discriminate.
  - split; [exists b; right; by left|]. intros Hk. vm_compute in Hk. discriminate.
  - split; [exists true; right; right; by exists b|]. intros _. reflexivity.
  - split; [exists false; right; by left|]. intros Hk. vm_compute in Hk. discriminate.
Qed.
(** ** The save dialog *)

(** X17: on a Mac whose version string is below ['10.15.2'] the option
    [parent] is popped without a default: a call without [parent] raises
    [KeyError] and no dialog is opened.  The call at the end of the module is
    such a call. *)
Theorem asksaveasfile_needs_parent (mac_ver mode : string)
    (options : gmap string filedialog.value) :
  filedialog.str_lt mac_ver "10.15.2" = true ->
  options !! "parent"%string = None ->
  filedialog.asksaveasfile "darwin" mac_ver mode options = inl Py.KeyError /\
  filedialog.main "darwin" mac_ver = inl Py.KeyError.
Proof.
  intros Hold Hnone. unfold filedialog.main, filedialog.asksaveasfile.
  rewrite Hold. unfold filedialog.pop. rewrite Hnone.
  by destruct (decide ("darwin"%string = "darwin"%string)).
Qed.

(** X18: what reaches the dialog.  When [asksaveasfile] returns, the mode is
    the caller's; every option other than [parent] and [initialfile] is as
    the caller gave it; an [initialfile] of the caller is kept; an
    [initialfile] is made up only on a Mac, from a [defaultextension] that is
    a string, and [parent] is either the caller's or gone, gone only on a Mac
    below ['10.15.2']. *)
Theorem asksaveasfile_options (platform mac_ver mode : string)
    (options : gmap string filedialog.value) (d : filedialog.dialog) :
  filedialog.asksaveasfile platform mac_ver mode options = inr d ->
  filedialog.mode d = mode /\
  (forall k, k <> "parent"%string -> k <> "initialfile"%string ->
             filedialog.options d !! k = options !! k) /\
  (forall v, options !! "initialfile"%string = Some v ->
             filedialog.options d !! "initialfile"%string = Some v) /\
  (options !! "initialfile"%string = None ->
   filedialog.options d !! "initialfile"%string =
     if decide (platform = "darwin"%string) then
       match options !! "defaultextension"%string with
       | Some (filedialog.Str extension) => Some (filedialog.Str ("untitled" +:+ extension))
       | _ => None
       end
     else None) /\
  filedialog.options d !! "parent"%string =
    (if decide (platform = "darwin"%string) then
       if filedialog.str_lt mac_ver "10.15.2" then None else options !! "parent"%string
     else options !! "parent"%string).
Proof.
  unfold filedialog.asksaveasfile.
  destruct (decide (platform = "darwin"%string)) as [->|Hp].
  2:{ intros [= <-]. cbn. repeat split; auto. }
  assert ((exists options',
    (if filedialog.str_lt mac_ver "10.15.2" then filedialog.pop "parent" options
     else inr options) = inr options' /\
    (forall k, k <> "parent"%string -> options' !! k = options !! k) /\
    options' !! "parent"%string =
      (if filedialog.str_lt mac_ver "10.15.2" then None else options !! "parent"%string)) \/
    (if filedialog.str_lt mac_ver "10.15.2" then filedialog.pop "parent" options
     else inr options) = inl Py.KeyError) as Hpop.
  { destruct (filedialog.str_lt mac_ver "10.15.2"); [|left; by exists options].
    unfold filedialog.pop. destruct (options !! "parent"%string); [|by right].
    left. eexists. split; [reflexivity|]. split.
    - intros k Hk. by rewrite lookup_delete_ne.
    - apply lookup_delete_eq. }
  destruct Hpop as [(options' & Hpop & Hother & Hparent)|Hpop]; rewrite Hpop;
    [|discriminate].
  rewrite (Hother "defaultextension"%string), (Hother "initialfile"%string) by discriminate.
  destruct (options !! "defaultextension"%string) as [[extension|name]|] eqn:Hext;
    destruct (options !! "initialfile"%string) as [initial|] eqn:Hinit;
    cbn [filedialog.add]; intros [= <-]; cbn [filedialog.mode filedialog.options].
  all: split; [reflexivity|].
  all: split; [intros k Hk1 Hk2; rewrite ?lookup_insert_ne by done; by apply Hother|].
  all: split; [intros v [= <-]; rewrite ?(Hother "initialfile"%string) by discriminate;
               try exact Hinit|].
  all: split; [intros Hn;
               first [ discriminate Hn
                     | rewrite ?lookup_insert_eq, ?(Hother "initialfile"%string)
                         by discriminate;
                       destruct (decide ("darwin"%string = "darwin"%string)); [|done];
                       first [reflexivity | exact Hinit] ]|].
  all: destruct (decide ("darwin"%string = "darwin"%string)); [|done].
  all: rewrite ?lookup_insert_ne by discriminate; exact Hparent.
Qed.

(** X19: the version is compared as a string.  A version string that
    starts with 10.2 to 10.9, as those of Mac OS X 10.2 to 10.9 do, is not
    below ['10.15.2'] character by character: a call on such a Mac does what a
    call on 10.15.2 does, it keeps [parent] and does not ask for it. *)
Theorem asksaveasfile_compares_strings (minor rest mode : string)
    (options : gmap string filedialog.value) :
  minor ∈ ["2"; "3"; "4"; "5"; "6"; "7"; "8"; "9"]%string ->
  let mac_ver := "10." +:+ minor +:+ rest in
  filedialog.str_lt mac_ver "10.15.2" = false /\
  filedialog.asksaveasfile "darwin" mac_ver mode options
    = filedialog.asksaveasfile "darwin" "10.15.2" mode options.
Proof.
  intros Hminor mac_ver.
  assert (filedialog.str_lt mac_ver "10.15.2" = false) as Hlt.
  { unfold mac_ver. repeat (apply elem_of_cons in Hminor as [->|Hminor]; [reflexivity|]).
    by apply elem_of_nil in Hminor. }
  split; [exact Hlt|]. unfold filedialog.asksaveasfile. rewrite Hlt. reflexivity.
Qed.
(** ** The build script *)

Lemma build_uploads_nothing (trace rest : list make.event) :
  trace ++ rest = make.build -> Forall (fun e => ~ make.uploads e) trace.
Proof.
  intros Heq.
  assert (Forall (fun e => ~ make.uploads e) make.build) as Hall.
  { repeat (apply Forall_cons; split; [intros (address & Haddress); discriminate Haddress|]).
    apply Forall_nil; exact I. }
  rewrite <- Heq in Hall. by apply Forall_app in Hall as [Hall _].
Qed.

(** What the statements before [USER] is read do: with the three directories
    there, the whole build; else they end at the first [os.chdir] that
    fails. *)
Lemma build_and_package_run (dirs : string -> bool) :
  (dirs "../" && dirs "SnapPyApp" && dirs "dmg-maker" = true /\
   make.build_and_package dirs = (None, make.build)) \/
  (dirs "../" && dirs "SnapPyApp" && dirs "dmg-maker" = false /\
   exists trace path rest,
     make.build_and_package dirs = (Some make.OSError, trace ++ [make.E_chdir path]) /\
     dirs path = false /\
     (trace ++ [make.E_chdir path]) ++ rest = make.build).
Proof.
  unfold make.build_and_package, make.chdir.
  destruct (dirs "../") eqn:H1.
  2:{ right. split; [reflexivity|]. exists [], "../"%string, (drop 1 make.build).
      split; [reflexivity|]. split; [exact H1|]. reflexivity. }
  cbn [make.then_ make.system make.for_ fold_left app andb].
  destruct (dirs "SnapPyApp") eqn:H2.
  2:{ right. split; [reflexivity|].
      exists (take 6 make.build), "SnapPyApp"%string, (drop 7 make.build).
      split; [reflexivity|]. split; [exact H2|]. reflexivity. }
  cbn [make.then_ make.system app andb].
  destruct (dirs "dmg-maker") eqn:H3.
  2:{ right. split; [reflexivity|].
      exists (take 10 make.build), "dmg-maker"%string, (drop 11 make.build).
      split; [reflexivity|]. split; [exact H3|]. reflexivity. }
  left. split; reflexivity.
Qed.

(** X20: the build script uploads for three users only, and only after a
    whole build.  When one of the three directories cannot be entered, the
    script ends in [OSError] at that [os.chdir], with the calls of the build
    up to there.  With the three directories there it runs the whole build;
    for the users [nmd], [dunfield] and [culler] it then greets and uploads to
    the address of that user, and ends; for every other user the name
    [address] is not bound and the script ends in [NameError], without [USER]
    in [KeyError].  Whenever the script ends in an exception, nothing was
    uploaded. *)
Theorem script_uploads_for_known_users (dirs : string -> bool)
    (environ : gmap string string) :
  (dirs "../" && dirs "SnapPyApp" && dirs "dmg-maker" = false ->
   (make.script dirs environ).1 = Some make.OSError /\
   exists trace path rest,
     (make.script dirs environ).2 = trace ++ [make.E_chdir path] /\
     dirs path = false /\
     (trace ++ [make.E_chdir path]) ++ rest = make.build) /\
  (dirs "../" && dirs "SnapPyApp" && dirs "dmg-maker" = true ->
   exists rest,
     (make.script dirs environ).2 = make.build ++ rest /\
     match environ !! "USER"%string with
     | None => (make.script dirs environ).1 = Some make.KeyError /\ rest = []
     | Some user =>
         if bool_decide (user ∈ ["nmd"; "dunfield"; "culler"]%string) then
           (make.script dirs environ).1 = None /\
           exists greeting,
             rest = [ make.E_print greeting;
                      make.E_system
                        (make.scp (if bool_decide (user = "culler"%string)
                                   then "culler@threlfall.math.uic.edu"
                                   else "t3m@shell.math.uic.edu")) ]
         else
           (make.script dirs environ).1 = Some make.NameError /\ rest = []
     end) /\
  ((make.script dirs environ).1 <> None ->
   Forall (fun e => ~ make.uploads e) (make.script dirs environ).2).
Proof.
  unfold make.script.
  destruct (build_and_package_run dirs)
    as [[Hdirs Hrun]|(Hdirs & trace & path & rest & Hrun & Hpath & Hbuild)];
    rewrite Hdirs, Hrun; cbn [make.then_ fst snd].
  2:{ split; [|split; [discriminate|]].
      - intros _. split; [reflexivity|]. by exists trace, path, rest.
      - intros _. by eapply build_uploads_nothing. }
  split; [discriminate|].
  assert (Forall (fun e => ~ make.uploads e) make.build) as Hbuild
    by (apply (build_uploads_nothing make.build []), app_nil_r).
  destruct (environ !! "USER"%string) as [user|].
  2:{ cbn [fst snd]. split; [|done]. intros _. exists []. by rewrite app_nil_r. }
  destruct (bool_decide (user ∈ ["nmd"; "dunfield"]%string)) eqn:Hnathan;
    destruct (bool_decide (user = "culler"%string)) eqn:Hmarc;
    unfold make.system; cbn [fst snd].
  - apply bool_decide_eq_true in Hnathan, Hmarc. subst user.
    exfalso. apply elem_of_cons in Hnathan as [Heq|Hnathan]; [discriminate|].
    apply elem_of_cons in Hnathan as [Heq|Hnathan]; [discriminate|].
    by apply elem_of_nil in Hnathan.
  - split; [|done]. intros _. eexists. rewrite <- app_assoc. split; [reflexivity|].
    rewrite bool_decide_eq_true_2.
    + split; [reflexivity|]. eexists. reflexivity.
    + apply bool_decide_eq_true in Hnathan. rewrite !elem_of_cons in Hnathan.
      rewrite !elem_of_cons. tauto.
  - split; [|done]. intros _. eexists. rewrite <- app_assoc. split; [reflexivity|].
    rewrite bool_decide_eq_true_2.
    + split; [reflexivity|]. eexists. reflexivity.
    + apply bool_decide_eq_true in Hmarc. subst user. rewrite !elem_of_cons. auto.
  - split; [|intros _; exact Hbuild]. intros _. exists []. rewrite app_nil_r.
    split; [reflexivity|]. rewrite bool_decide_eq_false_2.
    + split; reflexivity.
    + apply bool_decide_eq_false in Hnathan, Hmarc. rewrite !elem_of_cons in Hnathan.
      rewrite !elem_of_cons. tauto.
Qed.

(** * The properties on the storing kernel

    Each statement below is one of the theorems above at a widget built by
    [__init__] on the storing kernel, with every premise evaluated. *)

Lemma Stored_kernel_keeps_fillings (fs : list (list float)) (m m' : Stored.state) :
  dehn_fill fs m = inr m' ->
  Forall (fun f => length f = 2%nat) fs ->
  map (fun d => [ (filling d).1; (filling d).2 ]) (cusp_info m') = fs.
Proof.
  cbn [dehn_fill cusp_info Stored.kernel]. intros Hfill _.
  destruct (Stored.as_pairs fs) as [ps|] eqn:Hps; [|discriminate].
  destruct (decide (length ps = length (Stored.fillings m))); [|discriminate].
  injection Hfill as <-. cbn [Stored.fillings Stored.with_fillings].
  clear -Hps. revert ps Hps. induction fs as [|f fs IH]; intros ps Hps.
  - injection Hps as <-. reflexivity.
  - cbn [Stored.as_pairs] in Hps.
    destruct f as [|a [|b [|? ?]]]; cbn [Stored.as_pair] in Hps; try discriminate.
    destruct (Stored.as_pairs fs) as [ps'|]; [|discriminate].
    injection Hps as <-. cbn. f_equal. by apply IH.
Qed.

Lemma update_volume_label_solution_type_witness :
  let w := Stored.widget Stored.m2 None in
  exists sol_text,
    [ "degenerate"; "geometric"; "non-geometric"; "flat";
      "degenerate"; "degenerate"; "degenerate" ]%string !! Z.to_nat 1 = Some sol_text /\
    (update_volume_label w).1 = inr tt /\
    vol_label (update_volume_label w).2
      = Some ("Vol: " +:+ "2.030" +:+ " (" +:+ sol_text +:+ ")").
Proof.
  apply (update_volume_label_solution_type (Stored.widget Stored.m2 None) Stored.m2 1
           "2.030" "Vol: 2.030 (geometric)");
    [reflexivity | reflexivity | reflexivity | reflexivity | lia].
Defined.

Lemma update_volume_label_volume_witness :
  (let w := Stored.widget Stored.degenerate None in
   (update_volume_label w).1 = inr tt /\
   vol_label (update_volume_label w).2 = Some "Vol: - (degenerate)"%string) /\
  (let w := Stored.widget Stored.m2 None in
   (update_volume_label w).1 = inr tt /\
   vol_label (update_volume_label w).2 = Some "Vol: 2.030 (geometric)"%string).
Proof.
  split.
  - apply (update_volume_label_volume (Stored.widget Stored.degenerate None) Stored.degenerate
             "degenerate" "Vol: - (degenerate)");
      reflexivity.
  - apply (update_volume_label_volume (Stored.widget Stored.m2 None) Stored.m2
             "geometric" "Vol: 2.030 (geometric)");
      reflexivity.
Defined.

(** Rounding the fillings 2.5, 1.2, -0.5 and 3.7 returns with 2, 1, 0 and 4
    in the dictionary, and no call of the run forces the kernel to recompute
    the hyperbolic structure. *)
Lemma round_fillings_forces_no_recomputation :
  let w := Stored.widget Stored.halves None in
  (round_fillings w).1 = inr tt /\
  dicts (round_fillings w).2 !! (Filling_dict, "fillings"%string)
    = Some ("vec2[]"%string, UVecArray [[2; 1]; [0; 4]]%float) /\
  ~ exists l, E_init_hyperbolic_structure l true ∈ events_of round_fillings w.
Proof.
  intros w. split; [reflexivity|]. split; [reflexivity|].
  intros (l & Hin).
  pose proof (round_fillings_never_recomputes w) as Hall.
  rewrite Forall_forall in Hall. by apply (Hall _ Hin l true).
Qed.

Lemma round_fillings_is_a_filling_edit_witness :
  let w := Stored.widget Stored.halves (Some Stored.modeline) in
  (round_fillings w).1 = inr tt /\
  Forall2 (Forall2 nearest_integer)
    [[2.5; 1.2]; [-0.5; 3.7]]%float [[2; 1]; [0; 4]]%float /\
  events_of round_fillings w =
    [ E_control_show Filling_dict "fillings" (Some 0%nat) (Some 0%nat) 2;
      E_control_show Filling_dict "fillings" (Some 0%nat) (Some 1%nat) 1;
      E_control_show Filling_dict "fillings" (Some 1%nat) (Some 0%nat) 0;
      E_control_show Filling_dict "fillings" (Some 1%nat) (Some 1%nat) 4;
      E_dehn_fill 0%nat [[2; 1]; [0; 4]]%float;
      E_recompute_raytracing_data_and_redraw;
      E_volume 0%nat; E_solution_type 0%nat;
      E_vol_label_configure "Vol: 2.030 (geometric)";
      E_call Stored.modeline ] /\
  events_of recompute_hyperbolic_structure w =
    [ E_init_hyperbolic_structure 0%nat true;
      E_recompute_raytracing_data_and_redraw;
      E_volume 0%nat; E_solution_type 0%nat;
      E_vol_label_configure "Vol: 2.030 (geometric)";
      E_call Stored.modeline ].
Proof.
  intros w.
  destruct (round_fillings_is_a_filling_edit w Stored.halves eq_refl) as (_ & Hround & Hrec).
  destruct (Hround (Stored.with_fillings [(2, 1); (0, 4)]%float Stored.halves)
              "vec2[]"%string [[2.5; 1.2]; [-0.5; 3.7]]%float [[2; 1]; [0; 4]]%float
              "2.030"%string "geometric"%string)
    as (Hok & Hnear & _ & Hev).
  - reflexivity.
  - repeat constructor.
  - repeat constructor.
    + exists 2. split; reflexivity.
    + exists 1. split; reflexivity.
    + exists 0. split; reflexivity.
    + exists 4. split; reflexivity.
  - repeat (apply Forall_cons; split; [
      split; [reflexivity|]; split; [reflexivity|];
      eexists _, _, _; split; [reflexivity|]; split; [reflexivity|];
      split; [reflexivity|cbn; lia] |]).
    apply Forall_nil; exact I.
  - reflexivity.
  - reflexivity.
  - reflexivity.
  - destruct (Hrec Stored.halves "2.030"%string "geometric"%string eq_refl eq_refl eq_refl)
      as (_ & Hev').
    split; [exact Hok|]. split; [exact Hnear|]. split; [exact Hev|exact Hev'].
Defined.

Lemma push_fillings_to_manifold_order_witness :
  (let w := Stored.widget Stored.m2 (Some Stored.modeline) in
   (push_fillings_to_manifold w).1 = inr tt /\
   events_of push_fillings_to_manifold w =
     [ E_dehn_fill 0%nat [[1; 2]; [3; 4]]%float;
       E_recompute_raytracing_data_and_redraw;
       E_volume 0%nat; E_solution_type 0%nat;
       E_vol_label_configure "Vol: 2.030 (geometric)";
       E_call Stored.modeline ]) /\
  (let w := Stored.short Stored.m2 in
   (push_fillings_to_manifold w).1 = inl Py.IndexError /\
   events_of push_fillings_to_manifold w = [E_dehn_fill 0%nat [[1; 2]]%float]).
Proof.
  split; intros w.
  - destruct (push_fillings_to_manifold_order w Stored.m2 "vec2[]" [[1; 2]; [3; 4]]%float)
      as [Hpushed _]; [reflexivity..|].
    apply (Hpushed Stored.m2 "2.030"%string "geometric"%string); reflexivity.
  - destruct (push_fillings_to_manifold_order w Stored.m2 "vec2[]" [[1; 2]]%float)
      as [_ Hraised]; [reflexivity..|].
    apply (Hraised Py.IndexError). reflexivity.
Defined.

Lemma fillings_round_trip_witness :
  let w := Stored.widget Stored.m2 None in
  let w1 := (push_fillings_to_manifold w).2 in
  (_fillings_from_manifold w1).1
    = inr ("vec2[]"%string, UVecArray [[1; 2]; [3; 4]]%float) /\
  dicts (pull_fillings_from_manifold w1).2 !! (Filling_dict, "fillings"%string)
    = Some ("vec2[]"%string, UVecArray [[1; 2]; [3; 4]]%float).
Proof.
  intros w.
  apply (fillings_round_trip w Stored.m2 Stored.m2 "vec2[]" [[1; 2]; [3; 4]]%float).
  - apply Stored_kernel_keeps_fillings.
  - reflexivity.
  - reflexivity.
  - repeat constructor.
  - reflexivity.
Defined.

Lemma create_cusp_areas_frame_bound_witness :
  (let w := Stored.widget Stored.m2 None in
   (_maximal_cusp_area (manifold w) w).1 = inr 3%float /\
   exists frame,
     (create_cusp_areas_frame w).1 = inr frame /\ length frame = 2%nat /\
     Forall (fun c => udc_to c = (1.05 * 3)%float) frame) /\
  (let w := Stored.widget Stored.degenerate None in
   (_maximal_cusp_area (manifold w) w).1 = inr 5.0%float /\
   exists frame,
     (create_cusp_areas_frame w).1 = inr frame /\ length frame = 1%nat /\
     Forall (fun c => udc_to c = (1.05 * 5.0)%float /\ udc_to c = 5.25%float) frame).
Proof.
  split; intros w.
  - destruct (create_cusp_areas_frame_bound w Stored.m2 Stored.m2
                (Stored.with_fillings [(0, 0); (0, 0)]%float Stored.m2)
                (Stored.with_fillings [(0, 0); (0, 0)]%float Stored.m2))
      as [Hbound _]; [reflexivity..|].
    apply (Hbound [[4; 1]; [1; 9]]%float [4; 9]%float 9%float 3%float);
      [reflexivity|repeat constructor|reflexivity|reflexivity].
  - destruct (create_cusp_areas_frame_bound w Stored.degenerate Stored.degenerate
                (Stored.with_fillings [(0, 0)]%float Stored.degenerate)
                (Stored.with_fillings [(0, 0)]%float Stored.degenerate))
      as [_ Hfails]; [reflexivity..|].
    apply (Hfails Py.RuntimeError). reflexivity.
Defined.

(** On a manifold whose cusp area matrix cannot be computed,
    [_maximal_cusp_area] is 5.0 and the bound of the cusp area slider is 5.25,
    not 5.0. *)
Lemma cusp_area_slider_bound_is_not_five :
  let w := Stored.widget Stored.degenerate None in
  cusp_area_matrix "trigDependent" (Stored.with_fillings [(0, 0)]%float Stored.degenerate)
    = inl Py.RuntimeError /\
  (_maximal_cusp_area (manifold w) w).1 = inr 5.0%float /\
  exists c,
    (create_cusp_areas_frame w).1 = inr [c] /\
    udc_to c = 5.25%float /\ udc_to c <> 5.0%float.
Proof.
  intros w. split; [reflexivity|]. split; [reflexivity|].
  eexists. split; [reflexivity|]. split; [reflexivity|].
  intros Heq. apply (f_equal (fun x => PrimFloat.eqb x 5.0%float)) in Heq.
  vm_compute in Heq. discriminate.
Qed.

Lemma filling_edit_is_clamped_witness :
  let w := Stored.widget Stored.m2 None in
  let c := filling_scale 1 0 in
  udc_from_ c = (-15)%float /\ udc_to c = 15%float /\
  (forall x, (get_value c (edit c x w).2).1 = inr (clamp (-15) 15 x)) /\
  (get_value c (edit c 20 w).2).1 = inr 15%float /\
  (get_value c (edit c (-20) w).2).1 = inr (-15)%float /\
  edit c 20 w = edit c 15 w /\
  (edit c 20 w).1 = inr tt /\
  (edit c (-20) w).1 = inr tt.
Proof.
  intros w c.
  destruct (filling_edit_is_clamped (Stored.blank Stored.m2) w c "vec2[]"
              [[1; 2]; [3; 4]]%float)
    as (Hfrom & Hto & Hstored & Hhigh & Hlow & Hsame & _ & Hreturns).
  - apply (list_elem_of_lookup_2 _ 2%nat). reflexivity.
  - reflexivity.
  - exists 1%nat, [3; 4]%float. repeat split; reflexivity.
  - split; [exact Hfrom|]. split; [exact Hto|]. split; [exact Hstored|].
    split; [exact Hhigh|]. split; [exact Hlow|]. split; [exact (Hsame 20%float)|]. split.
    + apply (Hreturns 20%float [[1; 2]; [15; 4]]%float Stored.m2
               (Stored.with_fillings [(1, 2); (15, 4)]%float Stored.m2)
               "2.030"%string "geometric"%string);
        reflexivity.
    + apply (Hreturns (-20)%float [[1; 2]; [-15; 4]]%float Stored.m2
               (Stored.with_fillings [(1, 2); (-15, 4)]%float Stored.m2)
               "2.030"%string "geometric"%string);
        reflexivity.
Defined.

Lemma _maximal_cusp_area_leaves_manifold_witness :
  (let w := Stored.widget Stored.m2 None in
   heap (_maximal_cusp_area 0%nat w).2 !! 0%nat = Some Stored.m2 /\
   Forall (on_copy (fresh (dom (heap w)))) (events_of (_maximal_cusp_area 0%nat) w)) /\
  (let w := Stored.widget Stored.bare None in
   _maximal_cusp_area 0%nat w = (inr 5.0%float, w)).
Proof.
  split; intros w.
  - destruct (_maximal_cusp_area_leaves_manifold w 0%nat Stored.m2) as (Hframe & Hcalls & _);
      [reflexivity|].
    split; [|exact Hcalls].
    apply (Hframe 0%nat Stored.m2). reflexivity.
  - destruct (_maximal_cusp_area_leaves_manifold w 0%nat Stored.bare) as (_ & _ & Hbare);
      [reflexivity|].
    apply Hbare. reflexivity.
Defined.

Lemma _maximal_cusp_area_never_raises_witness :
  let w := Stored.widget Stored.m2 None in
  exists a,
    (_maximal_cusp_area 0%nat w).1 = inr a /\
    (a = 5.0%float \/ exists x, (x <? 0)%float = false /\ a = PrimFloat.sqrt x).
Proof.
  apply (_maximal_cusp_area_never_raises (Stored.widget Stored.m2 None) 0%nat Stored.m2).
  reflexivity.
Defined.

Lemma _maximal_cusp_area_no_cusps_witness :
  let w := Stored.widget Cases.closed None in
  (_maximal_cusp_area 0%nat w).1 = inr 5.0%float /\
  last (trace (_maximal_cusp_area 0%nat w).2)
    = Some (E_print "Exception while trying to compute maximal cusp area:" Py.ValueError).
Proof.
  apply (_maximal_cusp_area_no_cusps (Stored.widget Cases.closed None) 0%nat
           Cases.closed Cases.closed Cases.closed Cases.closed []);
    reflexivity.
Defined.

Lemma update_volume_label_outside_table_witness :
  (let w := Cases.later (Cases.coded (-1)) in
   (update_volume_label w).1 = inr tt /\
   vol_label (update_volume_label w).2 = Some "Vol: 2.030 (degenerate)"%string) /\
  (let w := Cases.later (Cases.coded (-5)) in
   vol_label (update_volume_label w).2 = Some "Vol: 2.030 (non-geometric)"%string) /\
  (let w := Cases.later (Cases.coded 7) in
   (update_volume_label w).1 = inl Py.IndexError /\
   vol_label (update_volume_label w).2 = Some "Vol: 2.030 (geometric)"%string /\
   events_of update_volume_label w = [E_volume 0%nat; E_solution_type 0%nat]).
Proof.
  split; [|split]; intros w.
  - destruct (update_volume_label_outside_table w (Cases.coded (-1)) "2.030"
                "Vol: 2.030 (geometric)") as [Hin _]; [reflexivity..|].
    destruct Hin as (sol_text & Hsol & Hok & Hlabel); [cbn; lia|].
    injection Hsol as <-. split; [exact Hok|exact Hlabel].
  - destruct (update_volume_label_outside_table w (Cases.coded (-5)) "2.030"
                "Vol: 2.030 (geometric)") as [Hin _]; [reflexivity..|].
    destruct Hin as (sol_text & Hsol & _ & Hlabel); [cbn; lia|].
    injection Hsol as <-. exact Hlabel.
  - destruct (update_volume_label_outside_table w (Cases.coded 7) "2.030"
                "Vol: 2.030 (geometric)") as [_ Hout]; [reflexivity..|].
    apply Hout. cbn. lia.
Defined.

Lemma update_volume_label_volume_raises_witness :
  let w := Cases.later Cases.crashing in
  update_volume_label w = (inl Py.RuntimeError, add_events [E_volume 0%nat] w).
Proof.
  intros w.
  apply (update_volume_label_volume_raises w Cases.crashing Py.RuntimeError);
    [reflexivity|reflexivity|discriminate].
Defined.

Lemma recompute_hyperbolic_structure_raises_witness :
  let w := Unstable.widget Stored.m2 in
  (recompute_hyperbolic_structure w).1 = inl Py.RuntimeError /\
  events_of recompute_hyperbolic_structure w = [E_init_hyperbolic_structure 0%nat true] /\
  vol_label (recompute_hyperbolic_structure w).2 = Some "Vol: 2.030 (geometric)"%string.
Proof.
  intros w.
  destruct (recompute_hyperbolic_structure_raises w (Unstable.Wrap Stored.m2)
              Py.RuntimeError) as (Hraised & Hcalls & Hlabel & _);
    [reflexivity..|].
  split; [exact Hraised|]. split; [exact Hcalls|]. rewrite Hlabel. reflexivity.
Defined.

Lemma create_fillings_frame_sliders_witness :
  let w := Stored.widget Stored.m2 None in
  let cs := filling_controllers (create_fillings_frame w).2 in
  (create_fillings_frame w).1 = inr cs /\
  length cs = 4%nat /\
  forall i component c,
    (i < 2)%nat -> (component < 2)%nat ->
    cs !! (2 * i + component)%nat = Some c ->
    udc_uniform_dict c = Filling_dict /\ udc_key c = "fillings"%string /\
    udc_index c = Some i /\ udc_component_index c = Some component /\
    udc_from_ c = (-15)%float /\ udc_to c = 15%float /\
    udc_update_function c = Some Push_fillings_to_manifold.
Proof.
  intros w cs.
  destruct (create_fillings_frame_sliders w Stored.m2) as (Hret & Hlen & Hbound);
    [reflexivity|].
  split; [exact Hret|]. split; [exact Hlen|]. exact Hbound.
Defined.



Lemma round_fillings_stops_at_bad_component_witness :
  let w := Cases.undefined None in
  round_fillings w =
    (inl Py.ValueError,
     set_dicts (<[(Filling_dict, "fillings"%string) :=
                    ("vec2[]"%string, UVecArray [[2; 1]; [nan; 3.7]]%float)]> (dicts w)) w).
Proof.
  intros w.
  destruct (round_fillings_stops_at_bad_component w "vec2[]" [[2.5; 1.2]]%float
              [[2; 1]]%float [] nan 3.7%float Py.ValueError) as [Hfirst _].
  - reflexivity.
  - repeat constructor.
  - repeat constructor.
    + exists 2. split; reflexivity.
    + exists 1. split; reflexivity.
  - apply Hfirst. reflexivity.
Defined.


(** * The other modules on examples *)

Lemma PerfTest_exits_at_last_iteration_witness :
  let pre := [PerfTest.Timer; PerfTest.Report 0.5; PerfTest.Timer; PerfTest.Report 0.25]%float in
  let post := [PerfTest.Report 1; PerfTest.Timer]%float in
  exists average,
    PerfTest.truediv (1000 * PerfTest.reported pre) 3 = inr average /\
    PerfTest.__init__ 3 (pre ++ PerfTest.Timer :: post)
      = (Some (PerfTest.SystemExit 0),
         Some {| PerfTest.m := (0.1 / 3)%float; PerfTest.num_iterations := 3;
                 PerfTest.current_iteration := 3;
                 PerfTest.total_time := PerfTest.reported pre |},
         {| PerfTest.pending := 0;
            PerfTest.trace :=
              [PerfTest.E_after 250; PerfTest.E_focus_set; PerfTest.E_mainloop] ++
              PerfTest.frames (PerfTest.timers pre) (0.1 / 3)%float ++
              [PerfTest.E_print
                 ("Total time: " +:+ PerfTest.format_1f (1000 * PerfTest.reported pre)
                  +:+ "ms");
               PerfTest.E_print ("Time: " +:+ PerfTest.format_1f average +:+ "ms")] |}).
Proof.
  intros pre post.
  apply (PerfTest_exits_at_last_iteration 3 pre post (0.1 / 3)%float);
    [lia|reflexivity|reflexivity].
Defined.

Lemma PerfTest_keeps_drawing_witness :
  PerfTest.__init__ 0 [PerfTest.Timer]
    = (Some PerfTest.ZeroDivisionError, None,
       {| PerfTest.pending := 0; PerfTest.trace := [] |}) /\
  PerfTest.__init__ (-2) [PerfTest.Timer; PerfTest.Report 0.5; PerfTest.Timer]
    = (None,
       Some {| PerfTest.m := (0.1 / -2)%float; PerfTest.num_iterations := -2;
               PerfTest.current_iteration := 2; PerfTest.total_time := 0.5%float |},
       {| PerfTest.pending := 1;
          PerfTest.trace :=
            [ PerfTest.E_after 250; PerfTest.E_focus_set; PerfTest.E_mainloop;
              PerfTest.E_update_view_state (0.1 / -2)%float;
              PerfTest.E_redraw_if_initialized; PerfTest.E_after 250;
              PerfTest.E_update_view_state (0.1 / -2)%float;
              PerfTest.E_redraw_if_initialized; PerfTest.E_after 250 ] |}).
Proof.
  split.
  - destruct (PerfTest_keeps_drawing 0 [PerfTest.Timer]) as [Hzero _].
    apply Hzero. reflexivity.
  - destruct (PerfTest_keeps_drawing (-2)
                [PerfTest.Timer; PerfTest.Report 0.5; PerfTest.Timer]) as [_ Hnegative].
    apply (Hnegative (0.1 / -2)%float); [reflexivity|left; lia].
Defined.

Lemma gui_checks_try_once_witness :
  let here := {| sage_helper.tk_available := true;
                 sage_helper.cyopengl_available := true |} in
  let g := (sage_helper.calls [(sage_helper.Cyopen_gl_works, here)] sage_helper.loaded).2 in
  sage_helper._gui_status g !! "tk"%string = Some true.
Proof.
  intros here g.
  apply (gui_checks_try_once [(sage_helper.Cyopen_gl_works, here)]). reflexivity.
Defined.

Lemma asksaveasfile_needs_parent_witness :
  filedialog.asksaveasfile "darwin" "10.14.6" "w"
    {[ "defaultextension"%string := filedialog.Str ".txt" ]} = inl Py.KeyError /\
  filedialog.main "darwin" "10.14.6" = inl Py.KeyError.
Proof.
  apply (asksaveasfile_needs_parent "10.14.6" "w"
           {[ "defaultextension"%string := filedialog.Str ".txt" ]});
    reflexivity.
Defined.

Lemma asksaveasfile_options_witness :
  let options : gmap string filedialog.value :=
    <[ "parent"%string := filedialog.Obj "root" ]>
      {[ "defaultextension"%string := filedialog.Str ".txt" ]} in
  let d := {| filedialog.mode := "w";
              filedialog.options :=
                <[ "initialfile"%string := filedialog.Str "untitled.txt" ]>
                  {[ "defaultextension"%string := filedialog.Str ".txt" ]} |} in
  filedialog.asksaveasfile "darwin" "10.14.6" "w" options = inr d /\
  filedialog.options d !! "defaultextension"%string = Some (filedialog.Str ".txt") /\
  filedialog.options d !! "initialfile"%string = Some (filedialog.Str "untitled.txt") /\
  filedialog.options d !! "parent"%string = None.
Proof.
  intros options d.
  assert (filedialog.asksaveasfile "darwin" "10.14.6" "w" options = inr d) as Hd
    by reflexivity.
  destruct (asksaveasfile_options "darwin" "10.14.6" "w" options d Hd)
    as (_ & Hother & _ & Hinitial & Hparent).
  split; [exact Hd|]. split; [|split].
  - rewrite Hother by discriminate. reflexivity.
  - rewrite Hinitial by reflexivity. reflexivity.
  - rewrite Hparent. reflexivity.
Defined.

Lemma asksaveasfile_compares_strings_witness :
  filedialog.str_lt "10.9.5" "10.15.2" = false /\
  filedialog.asksaveasfile "darwin" "10.9.5" "w" ∅
    = filedialog.asksaveasfile "darwin" "10.15.2" "w" ∅.
Proof.
  apply (asksaveasfile_compares_strings "9" ".5" "w" ∅).
  repeat constructor.
Defined.

Lemma script_uploads_for_known_users_witness :
  (let dirs := fun path => negb (String.eqb path "dmg-maker") in
   (make.script dirs {[ "USER"%string := "culler"%string ]}).1 = Some make.OSError /\
   Forall (fun e => ~ make.uploads e)
     (make.script dirs {[ "USER"%string := "culler"%string ]}).2) /\
  (let dirs := fun _ : string => true in
   (make.script dirs {[ "USER"%string := "guest"%string ]}).1 = Some make.NameError /\
   (make.script dirs {[ "USER"%string := "guest"%string ]}).2 = make.build) /\
  (let dirs := fun _ : string => true in
   (make.script dirs {[ "USER"%string := "culler"%string ]}).1 = None /\
   last (make.script dirs {[ "USER"%string := "culler"%string ]}).2
     = Some (make.E_system (make.scp "culler@threlfall.math.uic.edu"))).
Proof.
  split; [|split]; intros dirs.
  - destruct (script_uploads_for_known_users dirs {[ "USER"%string := "culler"%string ]})
      as (Hmissing & _ & Hnone).
    destruct Hmissing as [Hraised _]; [reflexivity|].
    split; [exact Hraised|]. apply Hnone. rewrite Hraised. discriminate.
  - destruct (script_uploads_for_known_users dirs {[ "USER"%string := "guest"%string ]})
      as (_ & Hthere & _).
    destruct Hthere as (rest & Htrace & Hresult & ->); [reflexivity|].
    split; [exact Hresult|]. rewrite Htrace. apply app_nil_r.
  - destruct (script_uploads_for_known_users dirs {[ "USER"%string := "culler"%string ]})
      as (_ & Hthere & _).
    destruct Hthere as (rest & Htrace & Hresult & greeting & ->); [reflexivity|].
    split; [exact Hresult|]. rewrite Htrace. reflexivity.
Defined.
